(** * Voice chat agent: the two route handlers and the turn controller

    A shallow embedding of
    - [src/app/api/search-wikipedia/route.ts]  (module [SearchWikipediaRoute]),
    - [src/app/api/voice-chat/route.ts]        (module [VoiceChatRoute]),
    - [src/components/VoiceChat.tsx]           (module [VoiceChat]),
    preceded by the fragment of JavaScript the three files rely on (module
    [Js]), the effect discipline of an [async] function body with a
    [try]/[catch] around it (module [Eff]) and the view a program has of
    HTTP (module [Http]).  Module [Deployment] plugs the search route into
    the lookup of the voice-chat route, module [Session] describes the runs
    of the mounted component, and module [Vocabulary] holds the predicates
    and the sample worlds of the statements.  The properties follow, by
    component: classifier, input validation, completion gateway, lookup
    gateway, turn controller.

    Conventions.
    - A JavaScript string is a sequence of code units; the model keeps the
      code units below 256, so a [string] of Rocq stands for a Latin-1 text.
      On those, [toLowerCase], [trim] and [encodeURIComponent] are the
      per-character functions defined below.
    - JSON numbers are kept to the integers JavaScript holds exactly
      (magnitude below 2^53), which [String] prints in full.
    - Every call that leaves a function (a [fetch], a [console.error], a
      state setter of React, a method of the speech engines) is recorded, in
      program order, in a log.
    - A state setter of React takes effect where it is called; the
      component only uses setters (and functional updates of the
      transcript), so no handler reads a stale state.
    - What the outside world answers is a parameter: a function from the
      request to the outcome of the [fetch]. *)

From Stdlib Require Import String Ascii List ZArith Bool Lia DecimalString.
Import ListNotations.

Set Warnings "-register-all".

Local Open Scope Z_scope.
Local Open Scope list_scope.
Local Open Scope string_scope.

(* ================================================================== *)
(** ** The JavaScript fragment *)
(* ================================================================== *)

Module Js.

(** A thrown value, identified with its [message]. *)
Definition exn := string.

(** Runtime values.  [VFun] is a built-in function reached through a
    prototype; only its [length] and its source text are observable. *)
Inductive value : Type :=
| VUndef
| VNull
| VBool (b : bool)
| VNum (n : Z)
| VStr (s : string)
| VArr (items : list value)
| VObj (fields : list (string * value))
| VFun (arity : Z) (src : string).

(** [!!v] *)
Definition truthy (v : value) : bool :=
  match v with
  | VUndef | VNull => false
  | VBool b => b
  | VNum n => negb (Z.eqb n 0)
  | VStr s => negb (String.eqb s "")
  | VArr _ | VObj _ | VFun _ _ => true
  end.

Definition nullish (v : value) : bool :=
  match v with
  | VUndef | VNull => true
  | _ => false
  end.

(** [a || b] *)
Definition or_else (a b : value) : value := if truthy a then a else b.

Fixpoint assoc (k : string) (fields : list (string * value)) : value :=
  match fields with
  | [] => VUndef
  | (k', v) :: rest => if String.eqb k' k then v else assoc k rest
  end.

Definition str_of_nat (n : nat) : string := NilZero.string_of_uint (Nat.to_uint n).
Definition str_of_Z (n : Z) : string := NilZero.string_of_int (Z.to_int n).

(** The message of the [TypeError] raised by a property read on [null] or
    [undefined] (wording of V8). *)
Definition type_error (v : value) (k : string) : exn :=
  "Cannot read properties of "
  ++ (match v with VNull => "null" | _ => "undefined" end)
  ++ " (reading '" ++ k ++ "')".

(** The message of the [TypeError] raised by [const { k } = await ...] on
    [null] or [undefined] (wording of V8). *)
Definition destructure_error (v : value) (k : string) : exn :=
  "Cannot destructure property '" ++ k ++ "' of '(intermediate value)' as it is "
  ++ (match v with VNull => "null" | _ => "undefined" end) ++ ".".

Definition String_prototype_search : value :=
  VFun 1 "function search() { [native code] }".

(** [v.k] for the property names the program reads ([query], [message],
    [results], [title], [summary], [url], [error], [choices], [content],
    [search], [length], [extract], [content_urls], [desktop], [page]).  Of
    these, the prototypes only define [length] (arrays, strings, functions)
    and [search] (strings). *)
Definition get_prop (v : value) (k : string) : exn + value :=
  match v with
  | VUndef | VNull => inl (type_error v k)
  | VObj fields => inr (assoc k fields)
  | VArr items =>
      inr (if String.eqb k "length" then VNum (Z.of_nat (List.length items)) else VUndef)
  | VStr s =>
      inr (if String.eqb k "length" then VNum (Z.of_nat (String.length s))
           else if String.eqb k "search" then String_prototype_search
           else VUndef)
  | VFun arity _ => inr (if String.eqb k "length" then VNum arity else VUndef)
  | VBool _ | VNum _ => inr VUndef
  end.

(** [const { k } = v]: the read [v.k], with the error of a destructuring. *)
Definition destructure (v : value) (k : string) : exn + value :=
  match get_prop v k with
  | inl _ => inl (destructure_error v k)
  | inr x => inr x
  end.

(** [v[i]] *)
Definition get_index (v : value) (i : nat) : exn + value :=
  match v with
  | VUndef | VNull => inl (type_error v (str_of_nat i))
  | VArr items => inr (nth i items VUndef)
  | VStr s =>
      inr (match String.get i s with
           | Some c => VStr (String c "")
           | None => VUndef
           end)
  | VObj fields => inr (assoc (str_of_nat i) fields)
  | VBool _ | VNum _ | VFun _ _ => inr VUndef
  end.

Definition or_undef (r : exn + value) : value :=
  match r with
  | inl _ => VUndef
  | inr v => v
  end.

(** [v?.k] and [v?.[i]]: [undefined] on a nullish [v], never an exception. *)
Definition opt_prop (v : value) (k : string) : value :=
  if nullish v then VUndef else or_undef (get_prop v k).

Definition opt_index (v : value) (i : nat) : value :=
  if nullish v then VUndef else or_undef (get_index v i).

(** [String(v)], as a template literal applies it. *)
Fixpoint to_string (v : value) : string :=
  match v with
  | VUndef => "undefined"
  | VNull => "null"
  | VBool b => if b then "true" else "false"
  | VNum n => str_of_Z n
  | VStr s => s
  | VArr items =>
      String.concat ","
        (List.map (fun x => match x with
                            | VUndef | VNull => ""
                            | _ => to_string x
                            end) items)
  | VObj _ => "[object Object]"
  | VFun _ src => src
  end.

(** [JSON.parse(JSON.stringify(v))]: [None] where [JSON.stringify] gives
    [undefined].  An object loses the fields that have no JSON form, an
    array keeps [null] in their place. *)
Fixpoint json_roundtrip (v : value) : option value :=
  match v with
  | VUndef | VFun _ _ => None
  | VNull | VBool _ | VNum _ | VStr _ => Some v
  | VArr items =>
      Some (VArr (List.map (fun x => match json_roundtrip x with
                                     | Some x' => x'
                                     | None => VNull
                                     end) items))
  | VObj fields =>
      Some (VObj ((fix clean (fs : list (string * value)) : list (string * value) :=
                     match fs with
                     | [] => []
                     | (k, x) :: rest =>
                         match json_roundtrip x with
                         | Some x' => (k, x') :: clean rest
                         | None => clean rest
                         end
                     end) fields))
  end.

(** *** Strings *)

Definition code (c : ascii) : Z := Z.of_N (N_of_ascii c).
Definition chr (n : Z) : ascii := ascii_of_N (Z.to_N n).

Definition between (lo hi n : Z) : bool := Z.leb lo n && Z.leb n hi.

(** Lower-casing of one Latin-1 code unit: A-Z, and U+00C0..U+00DE but for
    the multiplication sign U+00D7. *)
Definition lower_char (c : ascii) : ascii :=
  let n := code c in
  if between 65 90 n || (between 192 222 n && negb (Z.eqb n 215))
  then chr (n + 32) else c.

Fixpoint toLowerCase (s : string) : string :=
  match s with
  | EmptyString => EmptyString
  | String c rest => String (lower_char c) (toLowerCase rest)
  end.

Fixpoint startsWith (s k : string) : bool :=
  match k, s with
  | EmptyString, _ => true
  | String _ _, EmptyString => false
  | String a k', String b s' => Ascii.eqb a b && startsWith s' k'
  end.

(** [s.includes(k)] *)
Fixpoint includes (s k : string) : bool :=
  startsWith s k ||
  match s with
  | EmptyString => false
  | String _ rest => includes rest k
  end.

(** White space of [trim] among the Latin-1 code units: TAB, LF, VT, FF,
    CR, SP and NBSP. *)
Definition is_space (c : ascii) : bool :=
  let n := code c in between 9 13 n || Z.eqb n 32 || Z.eqb n 160.

Fixpoint trimStart (s : string) : string :=
  match s with
  | EmptyString => EmptyString
  | String c rest => if is_space c then trimStart rest else s
  end.

Fixpoint trimEnd (s : string) : string :=
  match s with
  | EmptyString => EmptyString
  | String c rest =>
      match trimEnd rest with
      | EmptyString => if is_space c then EmptyString else String c EmptyString
      | kept => String c kept
      end
  end.

Definition trim (s : string) : string := trimEnd (trimStart s).

Definition hex_digit (n : Z) : ascii :=
  if Z.ltb n 10 then chr (48 + n) else chr (55 + n).

Definition percent (byte : Z) : string :=
  String "%" (String (hex_digit (byte / 16)) (String (hex_digit (byte mod 16)) "")).

(** The characters [encodeURIComponent] leaves alone: letters, digits and
    [- _ . ! ~ * ' ( )]. *)
Definition unreserved (c : ascii) : bool :=
  let n := code c in
  between 65 90 n || between 97 122 n || between 48 57 n
  || existsb (Z.eqb n) [45; 95; 46; 33; 126; 42; 39; 40; 41].

(** One code unit, percent-encoded through UTF-8 (one byte below 128, two
    bytes from there to 255). *)
Definition encode_char (c : ascii) : string :=
  let n := code c in
  if unreserved c then String c ""
  else if Z.ltb n 128 then percent n
  else percent (192 + n / 64) ++ percent (128 + n mod 64).

Fixpoint encodeURIComponent_str (s : string) : string :=
  match s with
  | EmptyString => EmptyString
  | String c rest => encode_char c ++ encodeURIComponent_str rest
  end.

(** [encodeURIComponent(v)]: the argument is converted with [String] first.
    No Latin-1 text holds a lone surrogate, so no [URIError] arises. *)
Definition encodeURIComponent (v : value) : string :=
  encodeURIComponent_str (to_string v).

(** *** JSON text *)

Definition quote : string := String (chr 34) "".

Definition hex_lower (n : Z) : ascii :=
  if Z.ltb n 10 then chr (48 + n) else chr (87 + n).

Definition backslash : string := String (chr 92) "".

(** A character inside a JSON string literal: the quote, the backslash and
    the control characters are escaped. *)
Definition escape_char (c : ascii) : string :=
  let n := code c in
  if Z.eqb n 34 then backslash ++ quote
  else if Z.eqb n 92 then backslash ++ backslash
  else if Z.eqb n 8 then backslash ++ "b"
  else if Z.eqb n 12 then backslash ++ "f"
  else if Z.eqb n 10 then backslash ++ "n"
  else if Z.eqb n 13 then backslash ++ "r"
  else if Z.eqb n 9 then backslash ++ "t"
  else if Z.ltb n 32 then
    backslash ++ "u00" ++ String (hex_lower (n / 16)) (String (hex_lower (n mod 16)) "")
  else String c "".

Fixpoint escape (s : string) : string :=
  match s with
  | EmptyString => EmptyString
  | String c rest => escape_char c ++ escape rest
  end.

Definition quoted (s : string) : string := quote ++ escape s ++ quote.

(** The JSON text of a value that has been through [json_roundtrip]. *)
Fixpoint stringify (v : value) : string :=
  match v with
  | VUndef | VNull | VFun _ _ => "null"
  | VBool b => if b then "true" else "false"
  | VNum n => str_of_Z n
  | VStr s => quoted s
  | VArr items => "[" ++ String.concat "," (List.map stringify items) ++ "]"
  | VObj fields =>
      "{" ++ String.concat ","
               (List.map (fun kv => quoted (fst kv) ++ ":" ++ stringify (snd kv)) fields)
      ++ "}"
  end.

(** [JSON.stringify(v)], where it gives a text. *)
Definition JSON_stringify (v : value) : option string :=
  option_map stringify (json_roundtrip v).

End Js.

(* ================================================================== *)
(** ** Bodies of [async] functions: a log of calls and an outcome *)
(* ================================================================== *)

Module Eff.

Section WithEffect.
Context {E : Type}.

(** A computation emits calls of type [E] and then either throws or
    returns. *)
Definition M (A : Type) : Type := (list E * (Js.exn + A))%type.

Definition ret {A} (a : A) : M A := ([], inr a).
Definition throw {A} (e : Js.exn) : M A := ([], inl e).
Definition emit (e : E) : M unit := ([e], inr tt).

(** A step of the JavaScript fragment, which may throw. *)
Definition lift {A} (r : Js.exn + A) : M A := ([], r).

Definition bind {A B} (m : M A) (k : A -> M B) : M B :=
  match m with
  | (log, inl e) => (log, inl e)
  | (log, inr a) => let (log', r) := k a in (log ++ log', r)%list
  end.
End WithEffect.

Module Notations.
Declare Scope eff_scope.
Delimit Scope eff_scope with eff.
Notation "x <- c ;; k" := (bind c (fun x => k))
  (at level 61, c at next level, right associativity) : eff_scope.
Notation "c ;; k" := (bind c (fun _ => k))
  (at level 61, right associativity) : eff_scope.
End Notations.

End Eff.

(* ================================================================== *)
(** ** What [fetch] gives and what a route handler answers *)
(* ================================================================== *)

Module Http.

(** A response as the program reads it: its status, and the outcome of
    [await response.text()] and of [await response.json()], either of which
    may reject. *)
Record response : Type := {
  status : Z;
  text : Js.exn + string;
  json : Js.exn + Js.value
}.

(** [await fetch(...)]: rejected (no response: DNS, connection, ...) or
    resolved with a response of any status. *)
Inductive fetch_result : Type :=
| Rejected (e : Js.exn)
| Responded (r : response).

(** [response.ok] *)
Definition ok (r : response) : bool := Js.between 200 299 (status r).

(** What a handler returns: [NextResponse.json(body, { status })]. *)
Record reply : Type := {
  reply_status : Z;
  reply_body : Js.value
}.

(** [NextResponse.json(body, { status: st })] for a status the constructor
    accepts, as the literal 200, 400 and 500 of the handlers are. *)
Definition NextResponse_json (body : Js.value) (st : Z) : reply :=
  {| reply_status := st; reply_body := body |}.

(** The statuses that go with no body: 101, 103, 204, 205 and 304. *)
Definition null_body_status (st : Z) : bool :=
  existsb (Z.eqb st) [101; 103; 204; 205; 304].

(** The statuses the [Response] constructor accepts together with a body:
    those from 200 to 599 that are not null body statuses. *)
Definition with_body_status (st : Z) : bool :=
  Js.between 200 599 st && negb (null_body_status st).

(** What the constructor throws otherwise: a [RangeError] outside 200..599,
    a [TypeError] for a null body status (wording of undici). *)
Definition status_error (st : Z) : Js.exn :=
  if Js.between 200 599 st then
    "Response constructor: Invalid response status code " ++ Js.str_of_Z st
  else
    "init[" ++ Js.quote ++ "status" ++ Js.quote
    ++ "] must be in the range of 200 to 599, inclusive.".

(** [NextResponse.json(body, { status: st })] for a status that is only
    known when the handler runs. *)
Definition NextResponse_json_checked (body : Js.value) (st : Z) : Js.exn + reply :=
  if with_body_status st then inr (NextResponse_json body st)
  else inl (status_error st).

(** [{ error: msg }] *)
Definition error_body (msg : string) : Js.value := Js.VObj [("error", Js.VStr msg)].

End Http.

(* ================================================================== *)
(** ** POST /api/search-wikipedia *)
(* ================================================================== *)

Module SearchWikipediaRoute.
Import Js Eff Eff.Notations Http.
Local Open Scope eff_scope.

Inductive effect : Type :=
| Fetch (url : string)
| ConsoleError (label : string) (e : exn).

Section Route.
(** The Wikipedia servers: what [fetch(url)] resolves to. *)
Variable wikipedia : string -> fetch_result.

Definition fetch (url : string) : M response :=
  emit (Fetch url) ;;
  match wikipedia url with
  | Rejected e => throw e
  | Responded r => ret r
  end.

Definition searchUrl (query : value) : string :=
  "https://en.wikipedia.org/w/api.php?action=query&list=search&srsearch="
  ++ encodeURIComponent query ++ "&format=json&origin=*".

Definition summaryUrl (title : value) : string :=
  "https://en.wikipedia.org/api/rest_v1/page/summary/" ++ encodeURIComponent title.

Definition wikiUrl (title : value) : string :=
  "https://en.wikipedia.org/wiki/" ++ encodeURIComponent title.

(** The body of the [try] block; [req_json] is the outcome of
    [await req.json()]. *)
Definition POST_try (req_json : exn + value) : M reply :=
  body <- lift req_json ;;
  query <- lift (destructure body "query") ;;
  if negb (truthy query) then
    ret (NextResponse_json (error_body "Query missing") 400)
  else
    searchResponse <- fetch (searchUrl query) ;;
    searchData <- lift (json searchResponse) ;;
    q <- lift (get_prop searchData "query") ;;
    if negb (truthy (opt_prop (opt_prop q "search") "length")) then
      ret (NextResponse_json (VObj [("results", VArr [])]) 200)
    else
      hits <- lift (get_prop q "search") ;;
      firstResult <- lift (get_index hits 0) ;;
      title <- lift (get_prop firstResult "title") ;;
      summaryResponse <- fetch (summaryUrl title) ;;
      summaryData <- lift (json summaryResponse) ;;
      title' <- lift (get_prop summaryData "title") ;;
      extract <- lift (get_prop summaryData "extract") ;;
      content_urls <- lift (get_prop summaryData "content_urls") ;;
      ret (NextResponse_json
             (VObj [("results",
                     VArr [VObj [("title", title');
                                 ("summary", extract);
                                 ("url",
                                  or_else (opt_prop (opt_prop content_urls "desktop") "page")
                                          (VStr (wikiUrl title)))]])])
             200).

(** The handler: the [catch] turns every exception into a 500. *)
Definition POST (req_json : exn + value) : list effect * reply :=
  match POST_try req_json with
  | (log, inr r) => (log, r)
  | (log, inl e) =>
      ((log ++ [ConsoleError "Wikipedia search error:" e])%list,
       NextResponse_json (error_body "Search error") 500)
  end.
End Route.

End SearchWikipediaRoute.

(* ================================================================== *)
(** ** POST /api/voice-chat *)
(* ================================================================== *)

Module VoiceChatRoute.
Import Js Eff Eff.Notations Http.
Local Open Scope eff_scope.

(** The request sent to the completion API. *)
Record content_part : Type := { type : string; text : string }.
Record chat_message : Type := { role : string; content : list content_part }.
Record payload : Type := { model : string; messages : list chat_message }.

Inductive effect : Type :=
| FetchSearch (url : string) (body : value)
| FetchCompletion (authorization : string) (p : payload)
| ConsoleError (label : string) (detail : string).

(** [process.env]: a variable is a string or is not set. *)
Record process_env : Type := {
  NEXT_PUBLIC_BASE_URL : option string;
  OPENROUTER_API_KEY : option string
}.

Definition searchKeywords : list string :=
  [ "what is"; "who is"; "when did"; "where is"; "how does";
    "tell me about"; "information about"; "explain"; "define";
    "describe"; "history of"; "facts about"; "details about" ].

Definition needsSearch (message : string) : bool :=
  existsb (fun keyword => includes (toLowerCase message) keyword) searchKeywords.

(** [needsSearch] on whatever the request carried: a value that is not a
    string has no [toLowerCase]. *)
Definition needsSearch_any (message : value) : exn + bool :=
  match message with
  | VStr m => inr (needsSearch m)
  | _ => inl "message.toLowerCase is not a function"
  end.

Definition basePrompt : string :=
  "You are a helpful AI assistant. Answer the user's question clearly and concisely.".

Definition nl : string := String (chr 10) EmptyString.

(** The text appended to the prompt for a lookup result. *)
Definition searchBlock (title summary url : value) : string :=
  nl ++ nl ++ "Here is relevant information from Wikipedia:" ++ nl
  ++ "Title: " ++ to_string title ++ nl
  ++ "Summary: " ++ to_string summary ++ nl
  ++ "Source: " ++ to_string url ++ nl ++ nl
  ++ "Use this information to help answer the user's question. Be sure to mention that the information comes from Wikipedia when relevant.".

Definition mkPayload (systemPrompt message : string) : payload :=
  {| model := "anthropic/claude-sonnet-4";
     messages :=
       [ {| role := "system";
            content := [ {| type := "text"; text := systemPrompt |} ] |};
         {| role := "user";
            content := [ {| type := "text"; text := message |} ] |} ] |}.

Section Route.
Variable env : process_env.
(** The service behind [<base>/api/search-wikipedia] and the completion
    API: what each [fetch] resolves to. *)
Variable search_endpoint : string -> value -> fetch_result.
Variable completions : string -> payload -> fetch_result.

Definition baseUrl : string :=
  match NEXT_PUBLIC_BASE_URL env with
  | Some u => if String.eqb u "" then "http://localhost:3000" else u
  | None => "http://localhost:3000"
  end.

Definition authorization : string :=
  "Bearer " ++ match OPENROUTER_API_KEY env with
               | Some k => k
               | None => "undefined"
               end.

Definition resolve (r : fetch_result) : M (E := effect) response :=
  match r with
  | Rejected e => throw e
  | Responded resp => ret resp
  end.

Definition searchWikipedia_try (query : value) : M value :=
  let url := baseUrl ++ "/api/search-wikipedia" in
  let body := VObj [("query", query)] in
  emit (FetchSearch url body) ;;
  response <- resolve (search_endpoint url body) ;;
  data <- lift (json response) ;;
  results <- lift (get_prop data "results") ;;
  ret (or_else (opt_index results 0) VNull).

(** The lookup; [null] stands for "no result". *)
Definition searchWikipedia (query : value) : list effect * value :=
  match searchWikipedia_try query with
  | (log, inr v) => (log, v)
  | (log, inl e) => ((log ++ [ConsoleError "Wikipedia search failed:" e])%list, VNull)
  end.

(** [await searchWikipedia(message)] inside the handler: its calls are
    logged, and it returns. *)
Definition await_searchWikipedia (query : value) : M value :=
  let (log, v) := searchWikipedia query in (log, inr v).

(** The prompt after the optional lookup; [needs] is
    [needsSearch(message)]. *)
Definition buildPrompt (needs : bool) (message : value) : M string :=
  if needs then
    searchResult <- await_searchWikipedia message ;;
    if truthy searchResult then
      title <- lift (get_prop searchResult "title") ;;
      summary <- lift (get_prop searchResult "summary") ;;
      url <- lift (get_prop searchResult "url") ;;
      ret (basePrompt ++ searchBlock title summary url)
    else ret basePrompt
  else ret basePrompt.

(** The body of the [try] block; [req_json] is the outcome of
    [await req.json()].  Past [needsSearch] the message is a string, and
    [to_string] leaves it as it is. *)
Definition POST_try (req_json : exn + value) : M reply :=
  body <- lift req_json ;;
  message <- lift (destructure body "message") ;;
  if negb (truthy message) then
    ret (NextResponse_json (error_body "Message missing") 400)
  else
    needs <- lift (needsSearch_any message) ;;
    systemPrompt <- buildPrompt needs message ;;
    let p := mkPayload systemPrompt (to_string message) in
    emit (FetchCompletion authorization p) ;;
    response <- resolve (completions authorization p) ;;
    if negb (ok response) then
      err <- lift (Http.text response) ;;
      emit (ConsoleError "OpenRouter API error:" err) ;;
      lift (NextResponse_json_checked (error_body "Failed to get AI response")
              (status response))
    else
      data <- lift (json response) ;;
      ret (NextResponse_json data 200).

(** The handler: the [catch] turns every exception into a 500. *)
Definition POST (req_json : exn + value) : list effect * reply :=
  match POST_try req_json with
  | (log, inr r) => (log, r)
  | (log, inl e) =>
      ((log ++ [ConsoleError "Voice chat API error:" e])%list,
       NextResponse_json (error_body "Server error") 500)
  end.
End Route.

End VoiceChatRoute.

(* ================================================================== *)
(** ** The two routes deployed together *)
(* ================================================================== *)

(** [NEXT_PUBLIC_BASE_URL] points at the service itself, so the lookup of
    the voice-chat route is answered by the search route. *)
Module Deployment.
Import Js Http.

Section Deployed.
Variable wikipedia : string -> fetch_result.

(** The request body [JSON.stringify(body)], as [req.json()] reads it. *)
Definition received (body : value) : exn + value :=
  match json_roundtrip body with
  | Some b => inr b
  | None => inl "Unexpected end of JSON input"
  end.

(** A reply of a handler, as the caller's [fetch] sees it. *)
Definition served (r : reply) : fetch_result :=
  Responded
    match json_roundtrip (reply_body r) with
    | Some b =>
        {| status := reply_status r; text := inr (stringify b); json := inr b |}
    | None =>
        {| status := reply_status r; text := inr "";
           json := inl "Unexpected end of JSON input" |}
    end.

Definition search_endpoint (url : string) (body : value) : fetch_result :=
  served (snd (SearchWikipediaRoute.POST wikipedia (received body))).

Definition lookup (env : VoiceChatRoute.process_env) (query : value)
  : list VoiceChatRoute.effect * value :=
  VoiceChatRoute.searchWikipedia env search_endpoint query.

Definition voice_chat (env : VoiceChatRoute.process_env)
    (completions : string -> VoiceChatRoute.payload -> fetch_result)
    (req_json : exn + value) : list VoiceChatRoute.effect * reply :=
  VoiceChatRoute.POST env search_endpoint completions req_json.
End Deployed.

End Deployment.

(* ================================================================== *)
(** ** The turn controller (the VoiceChat component) *)
(* ================================================================== *)

Module VoiceChat.
Import Js Http.

Inductive Role : Type := user | assistant.

(** [text] is a string for a user turn; for an assistant turn it is whatever
    the completion payload held. *)
Record Message : Type := {
  role : Role;
  text : value;
  timestamp : Z
}.

(** The React state of the component, which the page renders. *)
Record View : Type := {
  messages : list Message;
  isListening : bool;
  isProcessing : bool;
  isSearching : bool;
  error : string;
  isSpeaking : bool
}.

(** The browser: whether a [SpeechRecognition] constructor exists, how many
    recognition objects were created, and the speech engine
    ([None]: no [speechSynthesis] in [window]; [Some b]:
    [speechSynthesis.speaking] is [b]). *)
Record Browser : Type := {
  hasSpeechRecognition : bool;
  created : nat;
  speechSynthesis : option bool
}.

(** Every call the component makes, in program order. *)
Inductive action : Type :=
| SetMessages_append (m : Message)
| SetMessages_clear
| SetIsListening (b : bool)
| SetIsProcessing (b : bool)
| SetIsSearching (b : bool)
| SetError (e : string)
| SetIsSpeaking (b : bool)
| Synth_cancel
| Synth_speak (t : value)
| Recognition_start (id : nat)
| Recognition_stop (id : nat)
| FetchVoiceChat (message : string)
| ConsoleError (label : string) (detail : string).

Record State : Type := {
  view : View;
  recognitionRef : option nat;
  browser : Browser;
  log : list action
}.

(** *** State setters *)

Definition call (a : action) (f : View -> View) (s : State) : State :=
  {| view := f (view s);
     recognitionRef := recognitionRef s;
     browser := browser s;
     log := (log s ++ [a])%list |}.

Definition setMessages_append (m : Message) : State -> State :=
  call (SetMessages_append m)
    (fun v => {| messages := (messages v ++ [m])%list; isListening := isListening v;
                 isProcessing := isProcessing v; isSearching := isSearching v;
                 error := error v; isSpeaking := isSpeaking v |}).

Definition setMessages_clear : State -> State :=
  call SetMessages_clear
    (fun v => {| messages := []; isListening := isListening v;
                 isProcessing := isProcessing v; isSearching := isSearching v;
                 error := error v; isSpeaking := isSpeaking v |}).

Definition setIsListening (b : bool) : State -> State :=
  call (SetIsListening b)
    (fun v => {| messages := messages v; isListening := b;
                 isProcessing := isProcessing v; isSearching := isSearching v;
                 error := error v; isSpeaking := isSpeaking v |}).

Definition setIsProcessing (b : bool) : State -> State :=
  call (SetIsProcessing b)
    (fun v => {| messages := messages v; isListening := isListening v;
                 isProcessing := b; isSearching := isSearching v;
                 error := error v; isSpeaking := isSpeaking v |}).

Definition setIsSearching (b : bool) : State -> State :=
  call (SetIsSearching b)
    (fun v => {| messages := messages v; isListening := isListening v;
                 isProcessing := isProcessing v; isSearching := b;
                 error := error v; isSpeaking := isSpeaking v |}).

Definition setError (e : string) : State -> State :=
  call (SetError e)
    (fun v => {| messages := messages v; isListening := isListening v;
                 isProcessing := isProcessing v; isSearching := isSearching v;
                 error := e; isSpeaking := isSpeaking v |}).

Definition setIsSpeaking (b : bool) : State -> State :=
  call (SetIsSpeaking b)
    (fun v => {| messages := messages v; isListening := isListening v;
                 isProcessing := isProcessing v; isSearching := isSearching v;
                 error := error v; isSpeaking := b |}).

Definition console_error (label detail : string) : State -> State :=
  call (ConsoleError label detail) (fun v => v).

(** *** Calls into the browser *)

Definition with_speaking (b : bool) (br : Browser) : Browser :=
  {| hasSpeechRecognition := hasSpeechRecognition br;
     created := created br;
     speechSynthesis := match speechSynthesis br with
                        | Some _ => Some b
                        | None => None
                        end |}.

(** [window.speechSynthesis.cancel()]: the queue is emptied and the engine
    is silent. *)
Definition synth_cancel (s : State) : State :=
  {| view := view s; recognitionRef := recognitionRef s;
     browser := with_speaking false (browser s);
     log := (log s ++ [Synth_cancel])%list |}.

(** [window.speechSynthesis.speak(utterance)]: the engine takes up the
    utterance. *)
Definition synth_speak (t : value) (s : State) : State :=
  {| view := view s; recognitionRef := recognitionRef s;
     browser := with_speaking true (browser s);
     log := (log s ++ [Synth_speak t])%list |}.

(** The engine finishes the utterance by itself. *)
Definition playback_over (s : State) : State :=
  {| view := view s; recognitionRef := recognitionRef s;
     browser := with_speaking false (browser s);
     log := log s |}.

(** [new SpeechRecognition()], [recognition.start()] and
    [recognitionRef.current = recognition]; the object is named by its rank
    of creation. *)
Definition recognition_start (s : State) : State :=
  let id := created (browser s) in
  {| view := view s;
     recognitionRef := Some id;
     browser := {| hasSpeechRecognition := hasSpeechRecognition (browser s);
                   created := S id;
                   speechSynthesis := speechSynthesis (browser s) |};
     log := (log s ++ [Recognition_start id])%list |}.

Definition recognition_stop (id : nat) (s : State) : State :=
  {| view := view s; recognitionRef := recognitionRef s; browser := browser s;
     log := (log s ++ [Recognition_stop id])%list |}.

(** *** The component's functions *)

Definition recognitionUnsupported : string :=
  "Speech recognition not supported in this browser. Please use Chrome, Edge, or Safari.".

Definition startListening (s : State) : State :=
  let s := setError "" s in
  if negb (hasSpeechRecognition (browser s)) then
    setError recognitionUnsupported s
  else
    let s := match speechSynthesis (browser s) with
             | Some true => setIsSpeaking false (synth_cancel s)
             | _ => s
             end in
    recognition_start s.

Definition stopListening (s : State) : State :=
  match recognitionRef s with
  | Some id => setIsListening false (recognition_stop id s)
  | None => s
  end.

(** The 10 s timer armed while [isListening] holds. *)
Definition listening_timeout (s : State) : State :=
  setError "Listening timed out. Please try again." (stopListening s).

Definition speakText (t : value) (s : State) : State :=
  match speechSynthesis (browser s) with
  | Some _ => synth_speak t (synth_cancel s)
  | None => setError "Text-to-speech not supported in this browser." s
  end.

(** The handlers [speakText] installs on the utterance. *)
Definition utterance_onstart : State -> State := setIsSpeaking true.
Definition utterance_onend : State -> State := setIsSpeaking false.
Definition utterance_onerror (s : State) : State :=
  setError "Text-to-speech failed. Please try again."
    (setIsSpeaking false (console_error "Speech synthesis error:" "" s)).

Definition stopSpeaking (s : State) : State :=
  match speechSynthesis (browser s) with
  | Some _ => setIsSpeaking false (synth_cancel s)
  | None => s
  end.

Definition clearChat (s : State) : State :=
  stopSpeaking (setError "" (setMessages_clear s)).

(** [sendMessage], up to its first [await]: the request is on its way. *)
Definition sendMessage (userMessage : string) (s : State) : State :=
  call (FetchVoiceChat userMessage) (fun v => v)
    (setIsSearching true (setIsProcessing true s)).

(** [new Error(v).message] *)
Definition Error_message (v : value) : exn := to_string v.

(** What the [try] block makes of a response: the reply, or the exception
    it throws. *)
Definition readReply (res : response) : exn + value :=
  if negb (ok res) then
    let errorData := match json res with
                     | inr d => d
                     | inl _ => VObj []
                     end in
    match get_prop errorData "error" with
    | inl e => inl e
    | inr err =>
        inl (Error_message
               (or_else err
                  (VStr ("HTTP " ++ str_of_Z (status res)
                         ++ ": Failed to process the message"))))
    end
  else
    match json res with
    | inl e => inl e
    | inr data =>
        match get_prop data "error" with
        | inl e => inl e
        | inr err =>
            if truthy err then inl (Error_message err)
            else
              match get_prop data "choices" with
              | inl e => inl e
              | inr choices =>
                  inr (or_else
                         (opt_prop (opt_prop (opt_index choices 0) "message") "content")
                         (VStr "No reply received"))
              end
        end
    end.

(** The outcome of the completion for the turn: [inr reply] on success,
    [inl e] on failure. *)
Definition completion (r : fetch_result) : exn + value :=
  match r with
  | Rejected e => inl e
  | Responded res => readReply res
  end.

(** The [catch] block. *)
Definition sendMessage_catch (e : exn) (s : State) : State :=
  setIsSearching false
    (setError (if String.eqb e "" then "Error sending message. Please try again." else e)
       (console_error "Send message error:" e s)).

(** [sendMessage] from the moment [fetch] settles: [now] is the clock read
    by [new Date()]. *)
Definition sendMessage_resume (now : Z) (r : fetch_result) (s : State) : State :=
  let s := match r with
           | Rejected _ => s
           | Responded _ => setIsSearching false s
           end in
  let s := match completion r with
           | inr reply =>
               speakText reply
                 (setMessages_append
                    {| role := assistant; text := reply; timestamp := now |} s)
           | inl e => sendMessage_catch e s
           end in
  setIsProcessing false s.

(** The handlers [startListening] installs on the recognition object. *)
Definition recognition_onstart (s : State) : State :=
  setError "" (setIsListening true s).

Definition recognition_onresult (now : Z) (transcript : string) (s : State) : State :=
  if truthy (VStr (trim transcript)) then
    sendMessage transcript
      (setMessages_append
         {| role := user; text := VStr transcript; timestamp := now |} s)
  else s.

Definition recognition_onerror (code : string) (s : State) : State :=
  setIsListening false
    (setError ("Speech recognition error: " ++ code ++ ". Please try again.")
       (console_error "Speech recognition error:" code s)).

Definition recognition_onend : State -> State := setIsListening false.

(** The component as it mounts. *)
Definition initial (hasRecognition : bool) (synthesis : option bool) : State :=
  {| view := {| messages := []; isListening := false; isProcessing := false;
                isSearching := false; error := ""; isSpeaking := false |};
     recognitionRef := None;
     browser := {| hasSpeechRecognition := hasRecognition; created := 0%nat;
                   speechSynthesis := synthesis |};
     log := [] |}.

End VoiceChat.

(* ================================================================== *)
(** ** The runs of the component *)
(* ================================================================== *)

(** What can happen to the mounted component: its functions are called (by
    the buttons of the page, or by anything else), the timer armed while
    [isListening] holds goes off, and the handlers it installed are fired by
    the recognition object, by the pending [fetch] and by the utterance.  A
    handler cannot fire before the object that carries it exists; nothing
    else is assumed of the browser. *)
Module Session.
Import Js Http VoiceChat.

Inductive event : Type :=
| Call_startListening
| Call_stopListening
| Call_stopSpeaking
| Call_clearChat
| Timer_listening
| Recognition_onstart
| Recognition_onresult (now : Z) (transcript : string)
| Recognition_onerror (code : string)
| Recognition_onend
| Fetch_settled (now : Z) (r : fetch_result)
| Utterance_onstart
| Utterance_onend
| Utterance_onerror
| Engine_done.

Definition handle (e : event) : State -> State :=
  match e with
  | Call_startListening => startListening
  | Call_stopListening => stopListening
  | Call_stopSpeaking => stopSpeaking
  | Call_clearChat => clearChat
  | Timer_listening => listening_timeout
  | Recognition_onstart => recognition_onstart
  | Recognition_onresult now transcript => recognition_onresult now transcript
  | Recognition_onerror code => recognition_onerror code
  | Recognition_onend => recognition_onend
  | Fetch_settled now r => sendMessage_resume now r
  | Utterance_onstart => utterance_onstart
  | Utterance_onend => utterance_onend
  | Utterance_onerror => utterance_onerror
  | Engine_done => playback_over
  end.

Definition is_request (a : action) : bool :=
  match a with
  | FetchVoiceChat _ => true
  | _ => false
  end.

Definition is_speak (a : action) : bool :=
  match a with
  | Synth_speak _ => true
  | _ => false
  end.

(** A recognition object was created. *)
Definition recognizing (s : State) : bool := negb (Nat.eqb (created (browser s)) 0).
(** A request was sent. *)
Definition requested (s : State) : bool := existsb is_request (log s).
(** An utterance was handed to the engine. *)
Definition uttered (s : State) : bool := existsb is_speak (log s).

Definition enabled (e : event) (s : State) : bool :=
  match e with
  | Call_startListening | Call_stopListening | Call_stopSpeaking | Call_clearChat => true
  | Timer_listening => isListening (view s)
  | Recognition_onstart | Recognition_onresult _ _ | Recognition_onerror _
  | Recognition_onend => recognizing s
  | Fetch_settled _ _ => requested s
  | Utterance_onstart | Utterance_onend | Utterance_onerror => uttered s
  | Engine_done => true
  end.

(** The states of the runs that begin with the mounting of the component. *)
Inductive reachable : State -> Prop :=
| reach_initial (hasRecognition : bool) (synthesis : option bool) :
    reachable (initial hasRecognition synthesis)
| reach_step (s : State) (e : event) :
    reachable s -> enabled e s = true -> reachable (handle e s).

(** The run of a list of events, where each is enabled in its turn. *)
Fixpoint run (es : list event) (s : State) : option State :=
  match es with
  | [] => Some s
  | e :: rest => if enabled e s then run rest (handle e s) else None
  end.

(** The state a list of events leads to. *)
Definition after (es : list event) (s : State) : State :=
  fold_left (fun s e => handle e s) es s.

(** The Speaking flag presupposes an utterance, an utterance a speech engine
    and a request, a request a recognition object, and a recognition object
    the capability. *)
Definition causal (s : State) : Prop :=
  (recognizing s = true -> hasSpeechRecognition (browser s) = true)
  /\ (requested s = true -> recognizing s = true)
  /\ (uttered s = true -> requested s = true)
  /\ (uttered s = true -> speechSynthesis (browser s) <> None)
  /\ (isSpeaking (view s) = true -> uttered s = true).

End Session.

(* ================================================================== *)
(** ** Vocabulary of the statements *)
(* ================================================================== *)

Module Vocabulary.
Import Js Http.

(** [occurs k s]: the text [k] occurs in [s], somewhere. *)
Definition occurs (k s : string) : Prop :=
  exists pre post, s = pre ++ k ++ post.

(** The base persona string, and the instruction to attribute looked-up
    information to its source, as the service words them. *)
Definition persona : string :=
  "You are a helpful AI assistant. Answer the user's question clearly and concisely.".
Definition attribution : string :=
  "Be sure to mention that the information comes from Wikipedia when relevant.".

(** The marker phrases of the classifier, as the specification lists them. *)
Definition markers : list string :=
  [ "what is"; "who is"; "when did"; "where is"; "how does";
    "tell me about"; "information about"; "explain"; "define";
    "describe"; "history of"; "facts about"; "details about" ].





(** A request to a route lacks the field [k]: it has no JSON document for a
    body, or reading [k] off the document gives [undefined]. *)
Definition lacks_field (k : string) (req_json : exn + value) : bool :=
  match req_json with
  | inl _ => true
  | inr body =>
      match opt_prop body k with
      | VUndef => true
      | _ => false
      end
  end.

(** The fixed replies of the routes. *)
Definition message_missing : reply :=
  NextResponse_json (error_body "Message missing") 400.
Definition query_missing : reply :=
  NextResponse_json (error_body "Query missing") 400.
Definition server_error : reply :=
  NextResponse_json (error_body "Server error") 500.
Definition search_error : reply :=
  NextResponse_json (error_body "Search error") 500.
Definition completion_failed (st : Z) : reply :=
  NextResponse_json (error_body "Failed to get AI response") st.

Section ForRoute.
Import VoiceChatRoute.
Variable env : process_env.
Variable search_endpoint : string -> value -> fetch_result.

(** The calls that leave the service. *)
Definition is_fetch (e : effect) : bool :=
  match e with
  | FetchSearch _ _ | FetchCompletion _ _ => true
  | ConsoleError _ _ => false
  end.

(** The lookup result the handler works with for the utterance [m], if
    any: the classifier asks for a lookup and the lookup finds something. *)
Definition lookupResult (m : string) : option value :=
  if needsSearch m then
    let v := snd (searchWikipedia env search_endpoint (VStr m)) in
    if truthy v then Some v else None
  else None.

(** The system instruction as the specification describes it. *)
Definition systemInstruction (m : string) : string :=
  match lookupResult m with
  | None => basePrompt
  | Some v =>
      basePrompt
      ++ searchBlock (opt_prop v "title") (opt_prop v "summary") (opt_prop v "url")
  end.

(** The calls of that lookup, when the classifier asks for it. *)
Definition lookupLog (m : string) : list effect :=
  if needsSearch m then fst (searchWikipedia env search_endpoint (VStr m)) else [].

(** The completion request for the utterance [m]. *)
Definition completionRequest (m : string) : payload :=
  mkPayload (systemInstruction m) m.

(** What the handler does with the outcome of the completion call. *)
Definition conclude (log : list effect) (auth : string) (p : payload)
    (r : fetch_result) : list effect * reply :=
  let sent := (log ++ [FetchCompletion auth p])%list in
  let failed e := ((sent ++ [ConsoleError "Voice chat API error:" e])%list, server_error) in
  match r with
  | Rejected e => failed e
  | Responded res =>
      if ok res then
        match json res with
        | inr data => (sent, NextResponse_json data 200)
        | inl e => failed e
        end
      else
        match Http.text res with
        | inr err =>
            let logged := (sent ++ [ConsoleError "OpenRouter API error:" err])%list in
            if with_body_status (status res) then (logged, completion_failed (status res))
            else ((logged ++ [ConsoleError "Voice chat API error:" (status_error (status res))])%list,
                  server_error)
        | inl e => failed e
        end
  end.

Definition with_role (r : string) (p : payload) : list chat_message :=
  filter (fun c => String.eqb (role c) r) (messages p).
End ForRoute.

(** Worlds to run the routes in. *)
Definition env0 : VoiceChatRoute.process_env :=
  {| VoiceChatRoute.NEXT_PUBLIC_BASE_URL := None;
     VoiceChatRoute.OPENROUTER_API_KEY := Some "sk-or-v1-test" |}.

Definition offline : fetch_result := Rejected "fetch failed".
Definition no_search (url : string) (body : value) : fetch_result := offline.
Definition no_completions (auth : string) (p : VoiceChatRoute.payload) : fetch_result :=
  offline.
Definition no_wikipedia (url : string) : fetch_result := offline.

(** What [req.json()] gives for a request with an empty body. *)
Definition empty_body : exn + value := inl "Unexpected end of JSON input".



(** A response with a JSON body. *)
Definition json_response (st : Z) (v : value) : response :=
  {| status := st; text := inr (stringify v); json := inr v |}.

Definition hello : value := VObj [("message", VStr "hello")].
Definition zzyzx : value := VObj [("message", VStr "what is zzyzx")].

(** A Wikipedia whose search finds one page and whose summary service has
    nothing for it: 404 with an error document. *)
Definition one_hit : value :=
  VObj [("query", VObj [("search", VArr [VObj [("title", VStr "Zzyzx")]])])].
Definition not_found : value :=
  VObj [("type", VStr "https://mediawiki.org/wiki/HyperSwitch/errors/not_found");
        ("title", VStr "Not found.");
        ("method", VStr "get");
        ("detail", VStr "Page or revision not found.")].
Definition wikipedia_no_summary (url : string) : fetch_result :=
  if includes url "list=search" then Responded (json_response 200 one_hit)
  else Responded (json_response 404 not_found).

Section ForLookup.
Import SearchWikipediaRoute.
Variable wikipedia : string -> fetch_result.

(** The title of the first hit in the search data: [inr None] when there is
    no hit, [inl] when the data cannot be read that far. *)
Definition firstTitle (searchData : value) : exn + option value :=
  match get_prop searchData "query" with
  | inl e => inl e
  | inr q =>
      if truthy (opt_prop (opt_prop q "search") "length") then
        match get_prop q "search" with
        | inl e => inl e
        | inr hits =>
            match get_index hits 0 with
            | inl e => inl e
            | inr first =>
                match get_prop first "title" with
                | inl e => inl e
                | inr t => inr (Some t)
                end
            end
        end
      else inr None
  end.

(** Why a lookup comes back empty. *)
Inductive lookup_fails (q : value) : Prop :=
| search_unreachable (e : exn) :
    wikipedia (searchUrl q) = Rejected e -> lookup_fails q
| search_unparseable (r : response) (e : exn) :
    wikipedia (searchUrl q) = Responded r -> json r = inl e -> lookup_fails q
| search_unreadable (r : response) (data : value) (e : exn) :
    wikipedia (searchUrl q) = Responded r -> json r = inr data ->
    firstTitle data = inl e -> lookup_fails q
| search_no_hit (r : response) (data : value) :
    wikipedia (searchUrl q) = Responded r -> json r = inr data ->
    firstTitle data = inr None -> lookup_fails q
| summary_unreachable (r : response) (data t : value) (e : exn) :
    wikipedia (searchUrl q) = Responded r -> json r = inr data ->
    firstTitle data = inr (Some t) ->
    wikipedia (summaryUrl t) = Rejected e -> lookup_fails q
| summary_unparseable (r : response) (data t : value) (r' : response) (e : exn) :
    wikipedia (searchUrl q) = Responded r -> json r = inr data ->
    firstTitle data = inr (Some t) ->
    wikipedia (summaryUrl t) = Responded r' -> json r' = inl e -> lookup_fails q
| summary_null (r : response) (data t : value) (r' : response) (d : value) :
    wikipedia (searchUrl q) = Responded r -> json r = inr data ->
    firstTitle data = inr (Some t) ->
    wikipedia (summaryUrl t) = Responded r' -> json r' = inr d ->
    nullish d = true -> lookup_fails q.

(** The reply of the search route for a hit with a summary document. *)
Definition summary_reply (t d : value) : reply :=
  NextResponse_json
    (VObj [("results",
            VArr [VObj [("title", opt_prop d "title");
                        ("summary", opt_prop d "extract");
                        ("url",
                         or_else
                           (opt_prop (opt_prop (opt_prop d "content_urls") "desktop") "page")
                           (VStr (wikiUrl t)))]])])
    200.

(** The reply of the search route, read off the answers of Wikipedia. *)
Definition search_reply (q : value) : reply :=
  match wikipedia (searchUrl q) with
  | Rejected _ => search_error
  | Responded r =>
      match json r with
      | inl _ => search_error
      | inr data =>
          match firstTitle data with
          | inl _ => search_error
          | inr None => NextResponse_json (VObj [("results", VArr [])]) 200
          | inr (Some t) =>
              match wikipedia (summaryUrl t) with
              | Rejected _ => search_error
              | Responded r' =>
                  match json r' with
                  | inl _ => search_error
                  | inr d => if nullish d then search_error else summary_reply t d
                  end
              end
          end
      end
  end.
End ForLookup.

Section ForController.
Import VoiceChat.

(** The calls [s'] made on top of those of [s]. *)
Definition calls_since (s s' : State) (l : list action) : Prop :=
  log s' = (log s ++ l)%list.


(** A completion payload with one choice. *)
Definition one_choice (content : string) : value :=
  VObj [("choices", VArr [VObj [("message", VObj [("content", VStr content)])]])].

(** A first turn, up to the moment the reply is being spoken. *)
Definition first_turn : list Session.event :=
  [ Session.Call_startListening;
    Session.Recognition_onstart;
    Session.Recognition_onresult 1 "hello";
    Session.Recognition_onend;
    Session.Fetch_settled 2 (Responded (json_response 200 (one_choice "Hi there.")));
    Session.Utterance_onstart ].

Definition speaking_reply : State :=
  Session.after first_turn (initial true (Some false)).

(** The engine has played the reply to its end, and the [end] event of the
    utterance has not been handled yet. *)
Definition reply_played_out : State :=
  Session.after (first_turn ++ [Session.Engine_done])%list (initial true (Some false)).

(** The reply arrives and is spoken while the capture that heard the
    question is still on. *)
Definition reply_over_capture : list Session.event :=
  [ Session.Call_startListening;
    Session.Recognition_onstart;
    Session.Recognition_onresult 1 "hello";
    Session.Fetch_settled 2 (Responded (json_response 200 (one_choice "Hi there.")));
    Session.Utterance_onstart ].

Definition listening_over_reply : State :=
  Session.after reply_over_capture (initial true (Some false)).

(** The user starts a capture during the reply; the utterance that was cut
    short reports an error while the capture is on. *)
Definition interrupted_reply : list Session.event :=
  (first_turn
   ++ [ Session.Call_startListening;
        Session.Recognition_onstart;
        Session.Utterance_onerror ])%list.

Definition listening_with_error : State :=
  Session.after interrupted_reply (initial true (Some false)).

(** Wikipedia knows photosynthesis, and the model answers. *)
Definition photosynthesis_summary : value :=
  VObj [("title", VStr "Photosynthesis");
        ("extract", VStr "Photosynthesis is a system of biological processes.");
        ("content_urls",
         VObj [("desktop",
                VObj [("page", VStr "https://en.wikipedia.org/wiki/Photosynthesis")])])].

Definition wikipedia_photosynthesis (url : string) : fetch_result :=
  if includes url "list=search" then
    Responded (json_response 200
                 (VObj [("query",
                         VObj [("search", VArr [VObj [("title", VStr "Photosynthesis")]])])]))
  else Responded (json_response 200 photosynthesis_summary).

Definition completions_ok (auth : string) (p : VoiceChatRoute.payload) : fetch_result :=
  Responded (json_response 200 (one_choice "It's how plants make sugar from light.")).

(** The answer of the service to the request of the component. *)
Definition photosynthesis_answer : fetch_result :=
  Deployment.served
    (snd (Deployment.voice_chat wikipedia_photosynthesis env0 completions_ok
            (inr (VObj [("message", VStr "What is photosynthesis?")])))).

Definition photosynthesis_turn : list Session.event :=
  [ Session.Call_startListening;
    Session.Recognition_onstart;
    Session.Recognition_onresult 1 "What is photosynthesis?";
    Session.Recognition_onend;
    Session.Fetch_settled 2 photosynthesis_answer;
    Session.Utterance_onstart;
    Session.Engine_done;
    Session.Utterance_onend ].

End ForController.

End Vocabulary.
Import Vocabulary.

(* ================================================================== *)
(** ** Observations on the routes and on the component *)
(* ================================================================== *)

Module Observations.
Import Js Http.

(** What a handler can see of a [fetch] when it only calls [json()] on the
    response: the rejection, or the outcome of the parse.  The status and
    the text are not part of it. *)
Definition seen (r : fetch_result) : exn + (exn + value) :=
  match r with
  | Rejected e => inl e
  | Responded res => inr (json res)
  end.

Section ForSearchRoute.
Import SearchWikipediaRoute.
Variable wikipedia : string -> fetch_result.

Definition fetched (log : list effect) : list string :=
  flat_map (fun e => match e with
                     | Fetch url => [url]
                     | ConsoleError _ _ => []
                     end) log.

(** The title the route asks a summary for, given what the search
    answered. *)
Definition hitTitle (q : value) : option value :=
  match wikipedia (searchUrl q) with
  | Rejected _ => None
  | Responded r =>
      match json r with
      | inl _ => None
      | inr data =>
          match firstTitle data with
          | inr (Some t) => Some t
          | _ => None
          end
      end
  end.

End ForSearchRoute.

Section ForVoiceRoute.
Import VoiceChatRoute.
Variable env : process_env.
Variable search_endpoint : string -> value -> fetch_result.

(** What the voice-chat route makes of a request: it cannot use it (the
    body is not JSON or is [null], or the message is not a string), the
    message is missing (absent or falsy), or it holds an utterance. *)
Inductive request_kind : Type :=
| Unusable
| Missing
| Utterance (m : string).

Definition kind_of (req_json : exn + value) : request_kind :=
  match req_json with
  | inl _ => Unusable
  | inr body =>
      match get_prop body "message" with
      | inl _ => Unusable
      | inr msg =>
          if truthy msg then
            match msg with
            | VStr m => Utterance m
            | _ => Unusable
            end
          else Missing
      end
  end.

End ForVoiceRoute.

Section ForComponent.
Import VoiceChat.

(** A text made of white space only. *)
Fixpoint all_space (s : string) : bool :=
  match s with
  | EmptyString => true
  | String c rest => is_space c && all_space rest
  end.

(** A message as the component appends them: a user message holds the
    transcript, which is not blank; an assistant message holds a truthy
    value. *)
Definition sound_message (m : Message) : Prop :=
  match role m with
  | user => exists t, text m = VStr t /\ all_space t = false
  | assistant => truthy (text m) = true
  end.

(** No utterance is handed to the engine but right after a [cancel]:
    [after_cancel] tells whether the call before the list was one. *)
Fixpoint cancel_first (after_cancel : bool) (l : list action) : bool :=
  match l with
  | [] => true
  | Synth_speak _ :: rest => after_cancel && cancel_first false rest
  | Synth_cancel :: rest => cancel_first true rest
  | _ :: rest => cancel_first false rest
  end.

(** The states of the component in which a capture is on, and in which the
    browser has no recognition. *)
Definition capturing : State :=
  Session.after [Session.Call_startListening; Session.Recognition_onstart]
    (initial true (Some false)).

Definition refused : State :=
  Session.after [Session.Call_startListening] (initial false (Some false)).

(** What is on display and what is pending presuppose what caused it. *)
Definition grounded (s : State) : Prop :=
  (recognitionRef s = None <-> created (browser s) = 0%nat)
  /\ (isListening (view s) = true -> Session.recognizing s = true)
  /\ (messages (view s) <> [] -> Session.recognizing s = true)
  /\ (isProcessing (view s) = true -> Session.requested s = true)
  /\ (isSearching (view s) = true -> Session.requested s = true).

End ForComponent.

(** The Wikipedia of [wikipedia_no_summary], but for the status of the
    summary response. *)
Definition wikipedia_no_summary_200 (url : string) : fetch_result :=
  if includes url "list=search" then Responded (json_response 200 one_hit)
  else Responded (json_response 200 not_found).

End Observations.
Import Observations.

(* ================================================================== *)
(** ** Properties of the string primitives *)
(* ================================================================== *)

Section StringFacts.
Import Js.

Lemma startsWith_true_iff (s k : string) :
  startsWith s k = true <-> exists post, s = k ++ post.
Proof.
  revert s; induction k as [|a k IH]; intros s; simpl.
  - split; [intros _; exists s; reflexivity | intros _; destruct s; reflexivity].
  - destruct s as [|b s]; simpl.
    + split; [discriminate | intros [post H]; discriminate].
    + rewrite andb_true_iff, IH, Ascii.eqb_eq. split.
      * intros [-> [post ->]]. exists post. reflexivity.
      * intros [post H]. injection H as -> ->. split; [reflexivity | exists post; reflexivity].
Qed.

Lemma includes_true_iff (s k : string) :
  includes s k = true <-> occurs k s.
Proof.
  unfold occurs. induction s as [|c s IH]; cbn [includes].
  - rewrite orb_false_r, startsWith_true_iff. split.
    + intros [post H]. exists "", post. exact H.
    + intros [pre [post H]]. destruct pre; simpl in H.
      * exists post. exact H.
      * discriminate.
  - rewrite orb_true_iff, startsWith_true_iff, IH. split.
    + intros [[post H] | [pre [post H]]].
      * exists "", post. exact H.
      * exists (String c pre), post. simpl. rewrite H. reflexivity.
    + intros [pre [post H]]. destruct pre as [|c' pre]; simpl in H.
      * left. exists post. exact H.
      * right. injection H as _ H. exists pre, post. exact H.
Qed.

Lemma includes_false_iff (s k : string) :
  includes s k = false <-> ~ occurs k s.
Proof.
  rewrite <- includes_true_iff. destruct (includes s k); split; intros H;
    try reflexivity; try discriminate; try (intros H'; discriminate).
  exfalso. apply H. reflexivity.
Qed.

Lemma append_assoc (a b c : string) : (a ++ b) ++ c = a ++ (b ++ c).
Proof. induction a as [| x a IH]; cbn; [reflexivity | rewrite IH; reflexivity]. Qed.

Lemma occurs_prefix (k post : string) : occurs k (k ++ post).
Proof. exists "", post. reflexivity. Qed.

Lemma occurs_app_r (k a s : string) : occurs k s -> occurs k (a ++ s).
Proof.
  intros [pre [post ->]]. exists (a ++ pre), post. rewrite append_assoc. reflexivity.
Qed.
End StringFacts.

(* ================================================================== *)
(** ** The query classifier *)
(* ================================================================== *)

Section Classifier.
Import Js VoiceChatRoute.

Lemma markers_searchKeywords : searchKeywords = markers.
Proof. reflexivity. Qed.

Lemma needsSearch_true_iff (U : string) :
  needsSearch U = true <-> exists k, In k markers /\ occurs k (toLowerCase U).
Proof.
  unfold needsSearch. rewrite markers_searchKeywords, existsb_exists.
  split; intros [k [Hk H]]; exists k; split; try exact Hk;
    apply includes_true_iff; exact H.
Qed.

(** C1.  For every utterance [U], [needsSearch U] is [true] exactly when
    the lower-cased [U] contains one of the thirteen marker phrases as a
    substring, and it is [false] for every [U] whose lower-cased form
    contains none of them. *)
Theorem C1_needsSearch_iff_marker (U : string) :
  (needsSearch U = true <->
     exists k, In k markers /\ occurs k (toLowerCase U))
  /\ ((forall k, In k markers -> ~ occurs k (toLowerCase U)) ->
      needsSearch U = false).
Proof.
  split; [apply needsSearch_true_iff |].
  intros Hnone. destruct (needsSearch U) eqn:E; [| reflexivity].
  apply needsSearch_true_iff in E. destruct E as [k [Hk Hocc]].
  exfalso. exact (Hnone k Hk Hocc).
Qed.

(** "Tell me about gravity" is classified as a factual query. *)
Lemma C1_witness_tell_me_about :
  needsSearch "Tell me about gravity" = true.
Proof.
  apply (proj1 (C1_needsSearch_iff_marker "Tell me about gravity")).
  exists "tell me about". split.
  - simpl. do 5 right. left. reflexivity.
  - exists "", " gravity". reflexivity.
Defined.

Example needsSearch_pizza : needsSearch "I like pizza" = false.
Proof. reflexivity. Qed.

Example needsSearch_upper : needsSearch "WHAT IS photosynthesis?" = true.
Proof. reflexivity. Qed.

(** Containment is by substring: a marker inside a longer word matches. *)
Example needsSearch_inside_word : needsSearch "an unexplained noise" = true.
Proof. reflexivity. Qed.
End Classifier.

(* ================================================================== *)
(** ** Input validation of the two routes *)
(* ================================================================== *)

Section Validation.
Import Js Eff Http.

Variable env : VoiceChatRoute.process_env.
Variable search_endpoint : string -> value -> fetch_result.
Variable completions : string -> VoiceChatRoute.payload -> fetch_result.
Variable wikipedia : string -> fetch_result.

Local Abbreviation voice_chat := (VoiceChatRoute.POST env search_endpoint completions).
Local Abbreviation search_wikipedia := (SearchWikipediaRoute.POST wikipedia).

Lemma get_prop_opt_prop (v : value) (k : string) :
  nullish v = false -> get_prop v k = inr (opt_prop v k).
Proof.
  intros Hn. unfold opt_prop. rewrite Hn.
  destruct v; try discriminate; reflexivity.
Qed.

Lemma voice_chat_falsy_message (body m : value) :
  get_prop body "message" = inr m -> truthy m = false ->
  voice_chat (inr body) = ([], message_missing).
Proof.
  intros Hm Hf. unfold VoiceChatRoute.POST, VoiceChatRoute.POST_try, destructure.
  cbn [lift bind app]. rewrite Hm. cbn [bind app]. rewrite Hf. reflexivity.
Qed.

Lemma search_wikipedia_falsy_query (body q : value) :
  get_prop body "query" = inr q -> truthy q = false ->
  search_wikipedia (inr body) = ([], query_missing).
Proof.
  intros Hq Hf. unfold SearchWikipediaRoute.POST, SearchWikipediaRoute.POST_try, destructure.
  cbn [lift bind app]. rewrite Hq. cbn [bind app]. rewrite Hf. reflexivity.
Qed.

Lemma voice_chat_unreadable (e : exn) :
  voice_chat (inl e)
  = ([VoiceChatRoute.ConsoleError "Voice chat API error:" e], server_error).
Proof. reflexivity. Qed.

Lemma voice_chat_nullish_body (body : value) :
  nullish body = true ->
  voice_chat (inr body)
  = ([VoiceChatRoute.ConsoleError "Voice chat API error:"
        (destructure_error body "message")],
     server_error).
Proof. destruct body; try discriminate; reflexivity. Qed.

(** C8, as the code has it.  A request to POST /voice-chat whose body is a
    JSON document other than [null] and has no [message] field is answered
    400 with [{error: "Message missing"}] and makes no call at all.  A
    request whose body is not a JSON document (an empty body included) or
    is [null] is answered 500 with [{error: "Server error"}]; it makes no
    upstream call either, only the [catch] block logs the exception. *)
Theorem C8_missing_message_400_or_500 (req_json : exn + value) :
  lacks_field "message" req_json = true ->
  match req_json with
  | inr body =>
      if nullish body then
        snd (voice_chat req_json) = server_error
      else
        voice_chat req_json = ([], message_missing)
  | inl _ => snd (voice_chat req_json) = server_error
  end
  /\ filter is_fetch (fst (voice_chat req_json)) = [].
Proof.
  intros Hlack. destruct req_json as [e | body].
  - rewrite voice_chat_unreadable. split; reflexivity.
  - destruct (nullish body) eqn:Hn.
    + rewrite (voice_chat_nullish_body body Hn). split; reflexivity.
    + assert (Hm : get_prop body "message" = inr VUndef).
      { rewrite (get_prop_opt_prop body "message" Hn). cbn [lacks_field] in Hlack.
        destruct (opt_prop body "message"); try discriminate. reflexivity. }
      rewrite (voice_chat_falsy_message body VUndef Hm eq_refl). split; reflexivity.
Qed.
End Validation.

(** An empty body lacks the field, and the answer is 500, not 400. *)
Lemma C8_counterexample_empty_body :
  lacks_field "message" empty_body = true
  /\ VoiceChatRoute.POST env0 no_search no_completions empty_body
     = ([VoiceChatRoute.ConsoleError "Voice chat API error:" "Unexpected end of JSON input"],
        server_error)
  /\ Http.reply_status server_error <> 400.
Proof. repeat split. discriminate. Qed.

Lemma C8_witness_empty_object :
  VoiceChatRoute.POST env0 no_search no_completions (inr (Js.VObj []))
  = ([], message_missing)
  /\ filter (is_fetch)
       (fst (VoiceChatRoute.POST env0 no_search no_completions (inr (Js.VObj [])))) = [].
Proof.
  exact (C8_missing_message_400_or_500 env0 no_search no_completions
           (inr (Js.VObj [])) eq_refl).
Defined.

Section EmptyField.
Import Js Http.

Variable env : VoiceChatRoute.process_env.
Variable search_endpoint : string -> value -> fetch_result.
Variable completions : string -> VoiceChatRoute.payload -> fetch_result.
Variable wikipedia : string -> fetch_result.

(** C10.  A required field that is present but is the empty string is
    treated as an absent one: POST /voice-chat with an empty [message]
    answers 400 [{error: "Message missing"}], POST /search-wikipedia with an
    empty [query] answers 400 [{error: "Query missing"}], each exactly as
    for the body [{}], and neither makes any call. *)
Theorem C10_empty_string_field_is_missing (fields fields' : list (string * value)) :
  assoc "message" fields = VStr "" ->
  assoc "query" fields' = VStr "" ->
  VoiceChatRoute.POST env search_endpoint completions (inr (VObj fields))
    = ([], message_missing)
  /\ SearchWikipediaRoute.POST wikipedia (inr (VObj fields'))
    = ([], query_missing)
  /\ VoiceChatRoute.POST env search_endpoint completions (inr (VObj fields))
    = VoiceChatRoute.POST env search_endpoint completions (inr (VObj []))
  /\ SearchWikipediaRoute.POST wikipedia (inr (VObj fields'))
    = SearchWikipediaRoute.POST wikipedia (inr (VObj [])).
Proof.
  intros Hm Hq.
  assert (V : VoiceChatRoute.POST env search_endpoint completions (inr (VObj fields))
              = ([], message_missing)).
  { apply voice_chat_falsy_message with (m := VStr ""); [cbn; rewrite Hm |]; reflexivity. }
  assert (W : SearchWikipediaRoute.POST wikipedia (inr (VObj fields'))
              = ([], query_missing)).
  { apply search_wikipedia_falsy_query with (q := VStr ""); [cbn; rewrite Hq |]; reflexivity. }
  rewrite V, W. repeat split; reflexivity.
Qed.
End EmptyField.

Lemma C10_witness_empty_strings :
  VoiceChatRoute.POST env0 no_search no_completions
    (inr (Js.VObj [("message", Js.VStr "")])) = ([], message_missing)
  /\ SearchWikipediaRoute.POST no_wikipedia
    (inr (Js.VObj [("query", Js.VStr "")])) = ([], query_missing).
Proof.
  destruct (C10_empty_string_field_is_missing env0 no_search no_completions no_wikipedia
              [("message", Js.VStr "")] [("query", Js.VStr "")] eq_refl eq_refl)
    as [V [W _]].
  split; [exact V | exact W].
Defined.

(* ================================================================== *)
(** ** The voice-chat route, step by step *)
(* ================================================================== *)

Section RouteRuns.
Import Js Eff Http VoiceChatRoute.

Variable env : process_env.
Variable search_endpoint : string -> value -> fetch_result.
Variable completions : string -> payload -> fetch_result.

Lemma truthy_not_nullish (v : value) : truthy v = true -> nullish v = false.
Proof. destruct v; simpl; congruence. Qed.

(** The lookup makes one call, and logs the exception when it absorbs one. *)
Lemma searchWikipedia_log (query : value) :
  let url := baseUrl env ++ "/api/search-wikipedia" in
  let body := VObj [("query", query)] in
  fst (searchWikipedia env search_endpoint query) = [FetchSearch url body]
  \/ exists e, fst (searchWikipedia env search_endpoint query)
               = [FetchSearch url body; ConsoleError "Wikipedia search failed:" e].
Proof.
  cbv zeta. unfold searchWikipedia, searchWikipedia_try.
  cbn [emit bind]. unfold resolve.
  destruct (search_endpoint _ _) as [e | r]; cbn [throw ret lift bind app fst].
  - right. exists e. reflexivity.
  - destruct (json r) as [e | data]; cbn [bind app fst].
    + right. exists e. reflexivity.
    + destruct (get_prop data "results") as [e | results]; cbn [ret bind app fst].
      * right. exists e. reflexivity.
      * left. reflexivity.
Qed.

Lemma buildPrompt_run (m : string) :
  buildPrompt env search_endpoint (needsSearch m) (VStr m)
  = (lookupLog env search_endpoint m, inr (systemInstruction env search_endpoint m)).
Proof.
  unfold buildPrompt, lookupLog, systemInstruction, lookupResult, await_searchWikipedia.
  destruct (needsSearch m); [| reflexivity].
  destruct (searchWikipedia env search_endpoint (VStr m)) as [log v].
  cbn [bind fst snd]. destruct (truthy v) eqn:Hv.
  - pose proof (truthy_not_nullish v Hv) as Hn.
    rewrite !(get_prop_opt_prop v _ Hn). cbn [lift bind ret app].
    rewrite app_nil_r. reflexivity.
  - cbn [ret]. rewrite app_nil_r. reflexivity.
Qed.

Lemma POST_run (body : value) (m : string) :
  get_prop body "message" = inr (VStr m) -> m <> "" ->
  let p := completionRequest env search_endpoint m in
  POST env search_endpoint completions (inr body)
  = conclude (lookupLog env search_endpoint m) (authorization env) p
      (completions (authorization env) p).
Proof.
  intros Hm Hne p. unfold POST, POST_try, destructure.
  cbn [lift bind app]. rewrite Hm. cbn [bind app truthy].
  assert (Hs : String.eqb m "" = false) by (apply String.eqb_neq; exact Hne).
  rewrite Hs. cbn [negb needsSearch_any bind app to_string].
  rewrite buildPrompt_run. cbn [bind emit app].
  subst p. unfold conclude, resolve, completionRequest.
  destruct (completions _ _) as [e | res]; cbn [throw ret emit bind app].
  - reflexivity.
  - destruct (ok res); cbn [negb].
    + destruct (json res) as [e | data]; reflexivity.
    + destruct (Http.text res) as [e | err]; cbn [lift bind app];
        [rewrite <- ?app_assoc; reflexivity |].
      unfold NextResponse_json_checked.
      destruct (with_body_status (status res)); cbn [app];
        rewrite <- ?app_assoc; reflexivity.
Qed.
End RouteRuns.

(* ================================================================== *)
(** ** The completion gateway *)
(* ================================================================== *)

Section Gateway.
Import Js Eff Http VoiceChatRoute.

Variable env : process_env.
Variable search_endpoint : string -> value -> fetch_result.
Variable completions : string -> payload -> fetch_result.

Local Abbreviation voice_chat := (POST env search_endpoint completions).
Local Abbreviation request := (completionRequest env search_endpoint).
Local Abbreviation lookup_calls := (lookupLog env search_endpoint).



Lemma lookupLog_no_completion (m : string) (auth : string) (p : payload) :
  ~ In (FetchCompletion auth p) (lookup_calls m).
Proof.
  unfold lookupLog. destruct (needsSearch m); [| intros H; exact H].
  destruct (searchWikipedia_log env search_endpoint (VStr m)) as [H | [e H]];
    cbv zeta in H; rewrite H; simpl; intuition discriminate.
Qed.

Lemma conclude_completion (log : list effect) (auth auth' : string) (p p' : payload)
    (r : fetch_result) :
  In (FetchCompletion auth' p') (fst (conclude log auth p r)) ->
  In (FetchCompletion auth' p') log \/ (auth' = auth /\ p' = p).
Proof.
  unfold conclude. intros H.
  assert (G : In (FetchCompletion auth' p') (log ++ [FetchCompletion auth p])%list
              -> In (FetchCompletion auth' p') log \/ (auth' = auth /\ p' = p)).
  { intros G. apply in_app_or in G. destruct G as [G | [G | []]]; [left; exact G |].
    right. injection G as -> ->. split; reflexivity. }
  assert (G' : forall l d,
             In (FetchCompletion auth' p')
                ((log ++ [FetchCompletion auth p]) ++ [ConsoleError l d])%list
             -> In (FetchCompletion auth' p') log \/ (auth' = auth /\ p' = p)).
  { intros l d K. apply in_app_or in K. destruct K as [K | [K | []]];
      [apply G; exact K | discriminate]. }
  destruct r as [e | res]; cbn [fst] in H.
  - exact (G' _ _ H).
  - destruct (ok res).
    + destruct (json res); cbn [fst] in H; [exact (G' _ _ H) | exact (G H)].
    + destruct (Http.text res); cbn [fst] in H; [exact (G' _ _ H) |].
      destruct (with_body_status (status res)); cbn [fst] in H; [exact (G' _ _ H) |].
      apply in_app_or in H. destruct H as [H | [H | []]]; [exact (G' _ _ H) | discriminate].
Qed.

(** C6.  Every completion request the handler sends consists of exactly two
    messages: one of role [system] and one of role [user].  The user message
    holds the raw utterance.  The system message holds the base persona
    string, and, when a lookup result is present, that string followed by a
    block in which the result's title, its summary and its source URL occur,
    each under its label, together with the instruction to mention that the
    information comes from Wikipedia. *)
Theorem C6_completion_request_messages (req_json : exn + value) (auth : string)
    (p : payload) :
  In (FetchCompletion auth p) (fst (voice_chat req_json)) ->
  exists body m instruction,
    req_json = inr body
    /\ get_prop body "message" = inr (VStr m)
    /\ List.length (messages p) = 2%nat
    /\ with_role "user" p
       = [ {| role := "user"; content := [ {| type := "text"; text := m |} ] |} ]
    /\ with_role "system" p
       = [ {| role := "system";
              content := [ {| type := "text"; text := instruction |} ] |} ]
    /\ match lookupResult env search_endpoint m with
       | None => instruction = persona
       | Some v =>
           exists block,
             instruction = persona ++ block
             /\ occurs ("Title: " ++ to_string (opt_prop v "title")) block
             /\ occurs ("Summary: " ++ to_string (opt_prop v "summary")) block
             /\ occurs ("Source: " ++ to_string (opt_prop v "url")) block
             /\ occurs attribution block
       end.
Proof.
  intros Hin. destruct req_json as [e | body].
  - destruct Hin as [F | []]. discriminate.
  - destruct (get_prop body "message") as [e | msg] eqn:Hm.
    + unfold POST, POST_try, destructure in Hin. cbn [lift bind app] in Hin. rewrite Hm in Hin.
      destruct Hin as [F | []]. discriminate.
    + destruct (truthy msg) eqn:Ht.
      2:{ rewrite (voice_chat_falsy_message env search_endpoint completions body msg Hm Ht)
            in Hin. destruct Hin. }
      destruct msg as [ | | b | n | m | items | fields | a src ];
        try (unfold POST, POST_try, destructure in Hin; cbn [lift bind app] in Hin;
             rewrite Hm in Hin; cbn [bind app] in Hin; rewrite Ht in Hin;
             destruct Hin as [F | []]; discriminate).
      assert (Hne : m <> "").
      { intros ->. discriminate. }
      rewrite (POST_run env search_endpoint completions body m Hm Hne) in Hin.
      cbv zeta in Hin. apply conclude_completion in Hin.
      destruct Hin as [Hin | [-> ->]].
      * exfalso. exact (lookupLog_no_completion m auth p Hin).
      * exists body, m, (systemInstruction env search_endpoint m).
        repeat (split; [first [reflexivity | assumption] |]).
        unfold systemInstruction.
        destruct (lookupResult env search_endpoint m) as [v |]; [| reflexivity].
        exists (searchBlock (opt_prop v "title") (opt_prop v "summary") (opt_prop v "url")).
        split; [reflexivity |]. unfold searchBlock, attribution.
        repeat split.
        -- do 4 apply occurs_app_r. rewrite <- append_assoc. apply occurs_prefix.
        -- do 7 apply occurs_app_r. rewrite <- append_assoc. apply occurs_prefix.
        -- do 10 apply occurs_app_r. rewrite <- append_assoc. apply occurs_prefix.
        -- do 14 apply occurs_app_r. exists "Use this information to help answer the user's question. ", "".
           reflexivity.
Qed.
End Gateway.

(* ================================================================== *)
(** ** The lookup gateway *)
(* ================================================================== *)

Section Lookup.
Import Js Eff Http.

Variable env : VoiceChatRoute.process_env.
Variable wikipedia : string -> fetch_result.

Local Abbreviation lookup := (Deployment.lookup wikipedia env).

Lemma search_route_run (q : value) :
  truthy q = true ->
  snd (SearchWikipediaRoute.POST wikipedia (inr (VObj [("query", q)])))
  = search_reply wikipedia q.
Proof.
  intros Hq. unfold SearchWikipediaRoute.POST, SearchWikipediaRoute.POST_try, destructure, search_reply.
  cbn [lift bind app get_prop assoc String.eqb Ascii.eqb Bool.eqb andb]. cbn [bind app].
  rewrite Hq. cbn [negb]. unfold SearchWikipediaRoute.fetch. cbn [emit bind app].
  destruct (wikipedia (SearchWikipediaRoute.searchUrl q)) as [e | r];
    cbn [throw ret bind app snd]; [reflexivity |].
  destruct (json r) as [e | data]; cbn [bind app snd]; [reflexivity |].
  unfold firstTitle.
  destruct (get_prop data "query") as [e | qq]; cbn [bind app snd]; [reflexivity |].
  destruct (truthy (opt_prop (opt_prop qq "search") "length")); cbn [negb ret snd];
    [| reflexivity].
  destruct (get_prop qq "search") as [e | hits]; cbn [bind app snd]; [reflexivity |].
  destruct (get_index hits 0) as [e | first]; cbn [bind app snd]; [reflexivity |].
  destruct (get_prop first "title") as [e | t]; cbn [bind app snd]; [reflexivity |].
  cbn [emit bind app].
  destruct (wikipedia (SearchWikipediaRoute.summaryUrl t)) as [e | r'];
    cbn [throw ret bind app snd]; [reflexivity |].
  destruct (json r') as [e | d]; cbn [bind app snd]; [reflexivity |].
  destruct (nullish d) eqn:Hd.
  - destruct d; try discriminate; reflexivity.
  - rewrite !(get_prop_opt_prop d _ Hd). reflexivity.
Qed.

(** What the lookup makes of the reply of the search route. *)
Lemma lookup_run (m : string) :
  m <> "" ->
  snd (lookup (VStr m))
  = match json_roundtrip (reply_body (search_reply wikipedia (VStr m))) with
    | Some b => or_else (opt_index (opt_prop b "results") 0) VNull
    | None => VNull
    end.
Proof.
  intros Hm.
  assert (Ht : truthy (VStr m) = true).
  { cbn. apply String.eqb_neq in Hm. rewrite Hm. reflexivity. }
  unfold Deployment.lookup, VoiceChatRoute.searchWikipedia,
    VoiceChatRoute.searchWikipedia_try, Deployment.search_endpoint, Deployment.received.
  cbn [emit bind app json_roundtrip]. rewrite (search_route_run (VStr m) Ht).
  unfold Deployment.served, VoiceChatRoute.resolve.
  destruct (json_roundtrip (reply_body (search_reply wikipedia (VStr m)))) as [b |];
    cbn [ret lift bind app json]; [| reflexivity].
  destruct (nullish b) eqn:Hb.
  - destruct b; try discriminate; reflexivity.
  - rewrite (get_prop_opt_prop b "results" Hb). reflexivity.
Qed.



Lemma lookup_of_summary (m : string) (t d : value) :
  m <> "" -> search_reply wikipedia (VStr m) = summary_reply t d ->
  truthy (snd (lookup (VStr m))) = true.
Proof.
  intros Hm H. rewrite (lookup_run m Hm), H.
  cbn [summary_reply NextResponse_json reply_body json_roundtrip List.map].
  reflexivity.
Qed.


(** Conversely, the lookup comes back empty in no other case: the status of
    a response plays no part. *)
Lemma lookup_absent_fails (m : string) :
  m <> "" -> truthy (snd (lookup (VStr m))) = false -> lookup_fails wikipedia (VStr m).
Proof.
  intros Hm Hnull.
  destruct (wikipedia (SearchWikipediaRoute.searchUrl (VStr m))) as [e | r] eqn:H;
    [exact (search_unreachable _ _ e H) |].
  destruct (json r) as [e | data] eqn:J; [exact (search_unparseable _ _ r e H J) |].
  destruct (firstTitle data) as [e | [t |]] eqn:T;
    [exact (search_unreadable _ _ r data e H J T) | | exact (search_no_hit _ _ r data H J T)].
  destruct (wikipedia (SearchWikipediaRoute.summaryUrl t)) as [e | r'] eqn:S;
    [exact (summary_unreachable _ _ r data t e H J T S) |].
  destruct (json r') as [e | d] eqn:J';
    [exact (summary_unparseable _ _ r data t r' e H J T S J') |].
  destruct (nullish d) eqn:N; [exact (summary_null _ _ r data t r' d H J T S J' N) |].
  exfalso.
  assert (R : search_reply wikipedia (VStr m) = summary_reply t d).
  { unfold search_reply. rewrite H, J, T, S, J', N. reflexivity. }
  rewrite (lookup_of_summary m t d Hm R) in Hnull. discriminate.
Qed.
End Lookup.

Section LookupInTurn.
Import Js Eff Http VoiceChatRoute.

Variable env : process_env.
Variable wikipedia : string -> fetch_result.
Variable completions : string -> payload -> fetch_result.

Local Abbreviation lookup := (Deployment.lookup wikipedia env).
Local Abbreviation voice_chat := (Deployment.voice_chat wikipedia env completions).


Lemma conclude_sent (log : list effect) (auth : string) (p : payload) (r : fetch_result) :
  In (FetchCompletion auth p) (fst (conclude log auth p r)).
Proof.
  assert (G : In (FetchCompletion auth p) (log ++ [FetchCompletion auth p])%list).
  { apply in_or_app. right. left. reflexivity. }
  unfold conclude. destruct r as [e | res]; cbn [fst].
  - apply in_or_app. left. exact G.
  - destruct (ok res).
    + destruct (json res); cbn [fst]; [apply in_or_app; left |]; exact G.
    + destruct (Http.text res); cbn [fst]; [apply in_or_app; left; exact G |].
      destruct (with_body_status (status res)); cbn [fst].
      * apply in_or_app; left; exact G.
      * apply in_or_app; left; apply in_or_app; left; exact G.
Qed.

End LookupInTurn.


(** C5, at the input where the code departs from it.  The utterance is
    "what is zzyzx"; the search finds the page Zzyzx, and the summary
    service answers 404 with an error document.  Neither the search route
    nor the lookup looks at the status: the lookup yields a result made of
    the error document, and the completion request carries a prompt
    extended with it, with the title "Not found." and the summary
    "undefined". *)
Theorem C5_summary_404_augments_prompt :
  wikipedia_no_summary (SearchWikipediaRoute.summaryUrl (Js.VStr "Zzyzx"))
  = Http.Responded (json_response 404 not_found)
  /\ Http.ok (json_response 404 not_found) = false
  /\ snd (Deployment.lookup wikipedia_no_summary env0 (Js.VStr "what is zzyzx"))
     = Js.VObj [("title", Js.VStr "Not found.");
                ("url", Js.VStr "https://en.wikipedia.org/wiki/Zzyzx")]
  /\ snd (Deployment.lookup wikipedia_no_summary env0 (Js.VStr "what is zzyzx"))
     <> Js.VNull
  /\ fst (Deployment.voice_chat wikipedia_no_summary env0 no_completions
            (inr (Js.VObj [("message", Js.VStr "what is zzyzx")])))
     = [ VoiceChatRoute.FetchSearch "http://localhost:3000/api/search-wikipedia"
           (Js.VObj [("query", Js.VStr "what is zzyzx")]);
         VoiceChatRoute.FetchCompletion "Bearer sk-or-v1-test"
           (VoiceChatRoute.mkPayload
              (VoiceChatRoute.basePrompt
               ++ VoiceChatRoute.searchBlock (Js.VStr "Not found.") Js.VUndef
                    (Js.VStr "https://en.wikipedia.org/wiki/Zzyzx"))
              "what is zzyzx");
         VoiceChatRoute.ConsoleError "Voice chat API error:" "fetch failed" ]
  /\ VoiceChatRoute.basePrompt
     ++ VoiceChatRoute.searchBlock (Js.VStr "Not found.") Js.VUndef
          (Js.VStr "https://en.wikipedia.org/wiki/Zzyzx")
     <> VoiceChatRoute.basePrompt.
Proof.
  split; [reflexivity |]. split; [reflexivity |].
  assert (L : fst (Deployment.voice_chat wikipedia_no_summary env0 no_completions
                     (inr (Js.VObj [("message", Js.VStr "what is zzyzx")])))
              = [ VoiceChatRoute.FetchSearch "http://localhost:3000/api/search-wikipedia"
                    (Js.VObj [("query", Js.VStr "what is zzyzx")]);
                  VoiceChatRoute.FetchCompletion "Bearer sk-or-v1-test"
                    (VoiceChatRoute.mkPayload
                       (VoiceChatRoute.basePrompt
                        ++ VoiceChatRoute.searchBlock (Js.VStr "Not found.") Js.VUndef
                             (Js.VStr "https://en.wikipedia.org/wiki/Zzyzx"))
                       "what is zzyzx");
                  VoiceChatRoute.ConsoleError "Voice chat API error:" "fetch failed" ])
    by (vm_compute; reflexivity).
  assert (E : snd (Deployment.lookup wikipedia_no_summary env0 (Js.VStr "what is zzyzx"))
              = Js.VObj [("title", Js.VStr "Not found.");
                         ("url", Js.VStr "https://en.wikipedia.org/wiki/Zzyzx")])
    by (vm_compute; reflexivity).
  split; [exact E |]. split; [rewrite E; discriminate |]. split; [exact L |].
  intros H. vm_compute in H. discriminate H.
Qed.



(** A turn with a lookup result: the search finds the page Zzyzx, whose
    summary service answers with a document titled "Not found.". *)
Lemma C6_witness_lookup :
  let p :=
    VoiceChatRoute.mkPayload
      (VoiceChatRoute.basePrompt
       ++ VoiceChatRoute.searchBlock (Js.VStr "Not found.") Js.VUndef
            (Js.VStr "https://en.wikipedia.org/wiki/Zzyzx"))
      "what is zzyzx" in
  let search_endpoint := Deployment.search_endpoint wikipedia_no_summary in
  lookupResult env0 search_endpoint "what is zzyzx"
  = Some (Js.VObj [("title", Js.VStr "Not found.");
                   ("url", Js.VStr "https://en.wikipedia.org/wiki/Zzyzx")])
  /\ exists body m instruction,
       (inr zzyzx : Js.exn + Js.value) = inr body
       /\ Js.get_prop body "message" = inr (Js.VStr m)
       /\ List.length (VoiceChatRoute.messages p) = 2%nat
       /\ with_role "user" p
          = [ {| VoiceChatRoute.role := "user";
                 VoiceChatRoute.content :=
                   [ {| VoiceChatRoute.type := "text"; VoiceChatRoute.text := m |} ] |} ]
       /\ with_role "system" p
          = [ {| VoiceChatRoute.role := "system";
                 VoiceChatRoute.content :=
                   [ {| VoiceChatRoute.type := "text";
                        VoiceChatRoute.text := instruction |} ] |} ]
       /\ match lookupResult env0 search_endpoint m with
          | None => instruction = persona
          | Some v =>
              exists block,
                instruction = persona ++ block
                /\ occurs ("Title: " ++ Js.to_string (Js.opt_prop v "title")) block
                /\ occurs ("Summary: " ++ Js.to_string (Js.opt_prop v "summary")) block
                /\ occurs ("Source: " ++ Js.to_string (Js.opt_prop v "url")) block
                /\ occurs attribution block
          end.
Proof.
  cbv zeta. split; [vm_compute; reflexivity |].
  apply (C6_completion_request_messages env0
           (Deployment.search_endpoint wikipedia_no_summary) no_completions (inr zzyzx)
           (VoiceChatRoute.authorization env0)).
  vm_compute. right. left. reflexivity.
Defined.

(* ================================================================== *)
(** ** An invariant of the runs *)
(* ================================================================== *)

Section Runs.
Import Js Http VoiceChat Session.

Ltac open_state s :=
  destruct s as [[ms li pr se er sp] ref [hr cr sy] lg];
  unfold causal, recognizing, requested, uttered;
  cbn [view browser log recognitionRef isSpeaking isListening created
       hasSpeechRecognition speechSynthesis].

Ltac run_handlers :=
  unfold clearChat, listening_timeout, startListening, recognition_onresult,
    sendMessage_resume, recognition_onstart, recognition_onerror, recognition_onend,
    utterance_onstart, utterance_onend, utterance_onerror;
  unfold stopListening, stopSpeaking, sendMessage, sendMessage_catch, speakText,
    playback_over, recognition_start;
  unfold recognition_stop, synth_cancel, synth_speak, with_speaking,
    setMessages_append, setMessages_clear, setIsListening, setIsProcessing,
    setIsSearching, setError, setIsSpeaking, console_error, call;
  cbn [view browser log recognitionRef isSpeaking isListening created
       hasSpeechRecognition speechSynthesis negb].

Ltac split_cases :=
  repeat match goal with
         | |- context [match ?x with _ => _ end] => destruct x eqn:?
         | |- context [if ?x then _ else _] => destruct x eqn:?
         end.

Ltac close_causal :=
  cbn [view browser log recognitionRef isSpeaking isListening created
       hasSpeechRecognition speechSynthesis negb Nat.eqb];
  rewrite ?existsb_app; cbn [existsb is_request is_speak orb];
  rewrite ?orb_false_r, ?orb_true_r;
  repeat match goal with
         | H : negb ?b = _ |- _ => destruct b; cbn [negb] in H; try discriminate H
         end;
  intuition congruence.

Lemma causal_initial (hasRecognition : bool) (synthesis : option bool) :
  causal (initial hasRecognition synthesis).
Proof. unfold causal. cbn. intuition discriminate. Qed.

Lemma causal_step (s : State) (e : event) :
  causal s -> enabled e s = true -> causal (handle e s).
Proof.
  intros J En. revert J En. open_state s.
  destruct e; cbn [handle enabled]; unfold recognizing, requested, uttered;
    cbn [view browser log created isListening]; run_handlers; intros J En;
    split_cases; close_causal.
Qed.

(** In every run, the Speaking flag presupposes an utterance, an utterance
    a speech engine and a request, a request a recognition object, and a
    recognition object the capability of the browser. *)
Lemma reachable_causal (s : State) : reachable s -> causal s.
Proof.
  induction 1 as [hasRecognition synthesis | s e _ IH En].
  - apply causal_initial.
  - exact (causal_step s e IH En).
Qed.

Lemma run_reachable (es : list event) (s s' : State) :
  reachable s -> run es s = Some s' -> reachable s' /\ s' = after es s.
Proof.
  revert s. induction es as [| e es IH]; intros s R H; cbn in H.
  - injection H as <-. split; [exact R | reflexivity].
  - destruct (enabled e s) eqn:En; [| discriminate].
    exact (IH (handle e s) (reach_step s e R En) H).
Qed.

Lemma reachable_speaking_recognition (s : State) :
  reachable s -> isSpeaking (view s) = true -> hasSpeechRecognition (browser s) = true.
Proof.
  intros R Hs. destruct (reachable_causal s R) as [A [B [C [D E]]]]. auto.
Qed.

Lemma reachable_speaking_engine (s : State) :
  reachable s -> isSpeaking (view s) = true -> speechSynthesis (browser s) <> None.
Proof.
  intros R Hs. destruct (reachable_causal s R) as [A [B [C [D E]]]]. auto.
Qed.
End Runs.

(* ================================================================== *)
(** ** The turn controller *)
(* ================================================================== *)

Section Controller.
Import Js Http VoiceChat.

(** C9.  After [clearChat] the transcript is the empty sequence, whatever it
    was, and playback is over: with a speech engine in the browser the
    engine is cancelled and the Speaking flag is lowered; without one
    nothing can be playing, and in every run of the component the Speaking
    flag is down after [clearChat]. *)
Theorem C9_clear_empties_transcript_stops_playback (s : State) :
  messages (view (clearChat s)) = []
  /\ error (view (clearChat s)) = ""
  /\ speechSynthesis (browser (clearChat s)) <> Some true
  /\ match speechSynthesis (browser s) with
     | Some _ =>
         isSpeaking (view (clearChat s)) = false
         /\ calls_since s (clearChat s)
              [SetMessages_clear; SetError ""; Synth_cancel; SetIsSpeaking false]
     | None =>
         isSpeaking (view (clearChat s)) = isSpeaking (view s)
         /\ calls_since s (clearChat s) [SetMessages_clear; SetError ""]
     end
  /\ (Session.reachable s -> isSpeaking (view (clearChat s)) = false).
Proof.
  assert (G : forall engine, speechSynthesis (browser s) = engine ->
              messages (view (clearChat s)) = []
              /\ error (view (clearChat s)) = ""
              /\ speechSynthesis (browser (clearChat s)) <> Some true
              /\ match engine with
                 | Some _ =>
                     isSpeaking (view (clearChat s)) = false
                     /\ calls_since s (clearChat s)
                          [SetMessages_clear; SetError ""; Synth_cancel; SetIsSpeaking false]
                 | None =>
                     isSpeaking (view (clearChat s)) = isSpeaking (view s)
                     /\ calls_since s (clearChat s) [SetMessages_clear; SetError ""]
                 end).
  { intros engine E. unfold clearChat, stopSpeaking, calls_since.
    cbn [setError setMessages_clear call browser]. rewrite E.
    destruct engine as [b |]; cbn; rewrite ?E, <- ?app_assoc;
      repeat split; try reflexivity; discriminate. }
  destruct (G _ eq_refl) as [Hm [He [Hq Hcase]]].
  repeat split; try assumption.
  intros Hrun. destruct (speechSynthesis (browser s)) as [b |] eqn:E.
  - exact (proj1 Hcase).
  - destruct Hcase as [Hsame _]. rewrite Hsame.
    destruct (isSpeaking (view s)) eqn:Hs; [| reflexivity].
    exfalso. exact (reachable_speaking_engine s Hrun Hs E).
Qed.

(** What [startListening] does, in any state. *)
Lemma startListening_cases (s : State) :
  messages (view (startListening s)) = messages (view s)
  /\ isListening (view (startListening s)) = isListening (view s)
  /\ isProcessing (view (startListening s)) = isProcessing (view s)
  /\ isSearching (view (startListening s)) = isSearching (view s)
  /\ if hasSpeechRecognition (browser s) then
       error (view (startListening s)) = ""
       /\ recognitionRef (startListening s) = Some (created (browser s))
       /\ created (browser (startListening s)) = S (created (browser s))
       /\ isListening (view (recognition_onstart (startListening s))) = true
       /\ match speechSynthesis (browser s) with
          | Some true =>
              calls_since s (startListening s)
                [SetError ""; Synth_cancel; SetIsSpeaking false;
                 Recognition_start (created (browser s))]
              /\ isSpeaking (view (startListening s)) = false
              /\ speechSynthesis (browser (startListening s)) = Some false
          | engine =>
              calls_since s (startListening s)
                [SetError ""; Recognition_start (created (browser s))]
              /\ isSpeaking (view (startListening s)) = isSpeaking (view s)
              /\ speechSynthesis (browser (startListening s)) = engine
          end
     else
       error (view (startListening s)) = recognitionUnsupported
       /\ isSpeaking (view (startListening s)) = isSpeaking (view s)
       /\ recognitionRef (startListening s) = recognitionRef s
       /\ browser (startListening s) = browser s
       /\ calls_since s (startListening s) [SetError ""; SetError recognitionUnsupported].
Proof.
  unfold startListening, calls_since.
  cbn [setError call browser].
  destruct (hasSpeechRecognition (browser s)) eqn:Hrec; cbn [negb].
  - destruct (speechSynthesis (browser s)) as [[|] |] eqn:Hplay; cbn; rewrite ?Hplay;
      rewrite <- ?app_assoc; repeat split; reflexivity.
  - cbn. rewrite <- ?app_assoc. repeat split; reflexivity.
Qed.

(** C7, as the code has it.  In every run, [startListening] with the
    Speaking flag up is not refused: no error is shown, a new recognition
    object is started and is the current one, and its [onstart] raises the
    Listening flag.  What comes first depends on the speech engine, not on
    the flag.  While the engine is playing, the playback is cancelled and
    the Speaking flag lowered, and then the capture is started, in that
    order.  When the engine has already fallen silent (the flag is still up
    until the [end] event of the utterance is handled), nothing is
    cancelled and the Speaking flag stays up. *)
Theorem C7_start_while_speaking_cancels_if_playing (s : State) :
  Session.reachable s ->
  isSpeaking (view s) = true ->
  error (view (startListening s)) = ""
  /\ recognitionRef (startListening s) = Some (created (browser s))
  /\ isListening (view (recognition_onstart (startListening s))) = true
  /\ exists playing,
       speechSynthesis (browser s) = Some playing
       /\ speechSynthesis (browser (startListening s)) = Some false
       /\ if playing then
            calls_since s (startListening s)
              [SetError ""; Synth_cancel; SetIsSpeaking false;
               Recognition_start (created (browser s))]
            /\ isSpeaking (view (startListening s)) = false
          else
            calls_since s (startListening s)
              [SetError ""; Recognition_start (created (browser s))]
            /\ isSpeaking (view (startListening s)) = true.
Proof.
  intros Hrun Hflag.
  pose proof (reachable_speaking_recognition s Hrun Hflag) as Hrec.
  pose proof (reachable_speaking_engine s Hrun Hflag) as Hengine.
  destruct (startListening_cases s) as [_ [_ [_ [_ H]]]].
  rewrite Hrec in H. destruct H as [He [Href [_ [Hon H]]]].
  repeat (split; [assumption |]).
  destruct (speechSynthesis (browser s)) as [[|] |]; [| | contradiction].
  - exists true. destruct H as [Hc [Hs Hq]]. repeat split; assumption.
  - exists false. destruct H as [Hc [Hs Hq]]. rewrite Hflag in Hs.
    repeat split; assumption.
Qed.

(** C4, as the code has it.  [startListening] while Listening leaves the
    transcript and the Listening, Searching and Processing flags as they
    are, and is not ignored.  With the recognition capability, the error
    text is emptied and a further recognition object is started and becomes
    the current one; before that, a speech engine that is playing is
    cancelled and the Speaking flag lowered, and otherwise the engine and
    the Speaking flag are left as they are; these are all the calls made.
    Without the recognition capability only the error text changes, to the
    message that says so. *)
Theorem C4_start_while_listening_restarts_capture (s : State) :
  isListening (view s) = true ->
  messages (view (startListening s)) = messages (view s)
  /\ isListening (view (startListening s)) = true
  /\ isProcessing (view (startListening s)) = isProcessing (view s)
  /\ isSearching (view (startListening s)) = isSearching (view s)
  /\ if hasSpeechRecognition (browser s) then
       error (view (startListening s)) = ""
       /\ recognitionRef (startListening s) = Some (created (browser s))
       /\ created (browser (startListening s)) = S (created (browser s))
       /\ match speechSynthesis (browser s) with
          | Some true =>
              calls_since s (startListening s)
                [SetError ""; Synth_cancel; SetIsSpeaking false;
                 Recognition_start (created (browser s))]
              /\ isSpeaking (view (startListening s)) = false
              /\ speechSynthesis (browser (startListening s)) = Some false
          | engine =>
              calls_since s (startListening s)
                [SetError ""; Recognition_start (created (browser s))]
              /\ isSpeaking (view (startListening s)) = isSpeaking (view s)
              /\ speechSynthesis (browser (startListening s)) = engine
          end
     else
       error (view (startListening s)) = recognitionUnsupported
       /\ isSpeaking (view (startListening s)) = isSpeaking (view s)
       /\ recognitionRef (startListening s) = recognitionRef s
       /\ browser (startListening s) = browser s
       /\ calls_since s (startListening s) [SetError ""; SetError recognitionUnsupported].
Proof.
  intros Hl.
  destruct (startListening_cases s) as [Hm [Hli [Hp [Hse H]]]].
  rewrite Hl in Hli. repeat (split; [assumption |]).
  destruct (hasSpeechRecognition (browser s)); [| exact H].
  destruct H as [He [Href [Hcr [_ H]]]]. repeat (split; [assumption |]). exact H.
Qed.
End Controller.

Section Completion.
Import Js Http VoiceChat.


(** A reply of the model, played by the engine. *)
Example completion_success :
  completion (Responded (json_response 200 (one_choice "Hi there."))) = inr (VStr "Hi there.").
Proof. reflexivity. Qed.

(** The route answered 503 with its error body. *)
Example completion_failure :
  completion (Responded (json_response 503 (error_body "Failed to get AI response")))
  = inl "Failed to get AI response".
Proof. reflexivity. Qed.

(** A successful payload without any choice is a reply all the same. *)
Example completion_no_choice :
  completion (Responded (json_response 200 (VObj []))) = inr (VStr "No reply received").
Proof. reflexivity. Qed.
End Completion.

Lemma speaking_reply_reachable : Session.reachable speaking_reply.
Proof.
  apply (run_reachable first_turn (VoiceChat.initial true (Some false)) speaking_reply
           (Session.reach_initial true (Some false))).
  vm_compute. reflexivity.
Qed.

Lemma listening_with_error_reachable : Session.reachable listening_with_error.
Proof.
  apply (run_reachable interrupted_reply (VoiceChat.initial true (Some false))
           listening_with_error (Session.reach_initial true (Some false))).
  vm_compute. reflexivity.
Qed.

Lemma reply_played_out_reachable : Session.reachable reply_played_out.
Proof.
  apply (run_reachable (first_turn ++ [Session.Engine_done])
           (VoiceChat.initial true (Some false)) reply_played_out
           (Session.reach_initial true (Some false))).
  vm_compute. reflexivity.
Qed.

Lemma listening_over_reply_reachable : Session.reachable listening_over_reply.
Proof.
  apply (run_reachable reply_over_capture (VoiceChat.initial true (Some false))
           listening_over_reply (Session.reach_initial true (Some false))).
  vm_compute. reflexivity.
Qed.

(** The reply to "hello" has been played to its end and its [end] event is
    still to come: the controller is Speaking, and [startListening] starts
    the capture without cancelling anything and without lowering the
    Speaking flag. *)
Lemma C7_counterexample_playback_over :
  Session.reachable reply_played_out
  /\ VoiceChat.isSpeaking (VoiceChat.view reply_played_out) = true
  /\ calls_since reply_played_out (VoiceChat.startListening reply_played_out)
       [VoiceChat.SetError ""; VoiceChat.Recognition_start 1]
  /\ VoiceChat.isSpeaking (VoiceChat.view (VoiceChat.startListening reply_played_out))
     = true.
Proof.
  split; [exact reply_played_out_reachable |].
  repeat split.
Qed.

(** The capture is started while the reply to "hello" is being spoken, and
    after it has been played to its end. *)
Lemma C7_witness_speaking_reply :
  (calls_since speaking_reply (VoiceChat.startListening speaking_reply)
     [VoiceChat.SetError ""; VoiceChat.Synth_cancel; VoiceChat.SetIsSpeaking false;
      VoiceChat.Recognition_start 1]
   /\ VoiceChat.isSpeaking (VoiceChat.view (VoiceChat.startListening speaking_reply))
      = false)
  /\ (calls_since reply_played_out (VoiceChat.startListening reply_played_out)
        [VoiceChat.SetError ""; VoiceChat.Recognition_start 1]
      /\ VoiceChat.isSpeaking (VoiceChat.view (VoiceChat.startListening reply_played_out))
         = true).
Proof.
  split.
  - destruct (C7_start_while_speaking_cancels_if_playing speaking_reply
                speaking_reply_reachable eq_refl) as [_ [_ [_ [playing [Hp [_ H]]]]]].
    injection Hp as <-. exact H.
  - destruct (C7_start_while_speaking_cancels_if_playing reply_played_out
                reply_played_out_reachable eq_refl) as [_ [_ [_ [playing [Hp [_ H]]]]]].
    injection Hp as <-. exact H.
Defined.

(** Listening with an error text on display, in a run of the component:
    [startListening] empties the text and starts a further recognition
    object, so neither the state the page shows nor the capture is left as
    it was. *)
Lemma C4_counterexample_error_text_cleared :
  Session.reachable listening_with_error
  /\ VoiceChat.isListening (VoiceChat.view listening_with_error) = true
  /\ VoiceChat.error (VoiceChat.view listening_with_error)
     = "Text-to-speech failed. Please try again."
  /\ VoiceChat.error (VoiceChat.view (VoiceChat.startListening listening_with_error)) = ""
  /\ VoiceChat.view (VoiceChat.startListening listening_with_error)
     <> VoiceChat.view listening_with_error
  /\ calls_since listening_with_error (VoiceChat.startListening listening_with_error)
       [VoiceChat.SetError ""; VoiceChat.Recognition_start 2].
Proof.
  split; [exact listening_with_error_reachable |].
  repeat split. vm_compute. discriminate.
Qed.

(** A second start while Listening: with the engine silent, and with the
    engine speaking the reply. *)
Lemma C4_witness_listening :
  (VoiceChat.messages (VoiceChat.view (VoiceChat.startListening listening_with_error))
   = VoiceChat.messages (VoiceChat.view listening_with_error)
   /\ VoiceChat.isListening (VoiceChat.view (VoiceChat.startListening listening_with_error))
      = true
   /\ VoiceChat.recognitionRef (VoiceChat.startListening listening_with_error)
      = Some 2%nat
   /\ calls_since listening_with_error (VoiceChat.startListening listening_with_error)
        [VoiceChat.SetError ""; VoiceChat.Recognition_start 2])
  /\ (VoiceChat.isListening (VoiceChat.view (VoiceChat.startListening listening_over_reply))
      = true
      /\ calls_since listening_over_reply (VoiceChat.startListening listening_over_reply)
           [VoiceChat.SetError ""; VoiceChat.Synth_cancel; VoiceChat.SetIsSpeaking false;
            VoiceChat.Recognition_start 1]
      /\ VoiceChat.isSpeaking
           (VoiceChat.view (VoiceChat.startListening listening_over_reply)) = false
      /\ VoiceChat.speechSynthesis
           (VoiceChat.browser (VoiceChat.startListening listening_over_reply))
         = Some false).
Proof.
  split.
  - destruct (C4_start_while_listening_restarts_capture listening_with_error eq_refl)
      as [Hm [Hl [_ [_ [_ [Href [_ [Hcalls _]]]]]]]].
    split; [exact Hm |]. split; [exact Hl |]. split; [exact Href | exact Hcalls].
  - destruct (C4_start_while_listening_restarts_capture listening_over_reply eq_refl)
      as [_ [Hl [_ [_ [_ [_ [_ [Hcalls [Hs Hq]]]]]]]]].
    split; [exact Hl |]. split; [exact Hcalls |]. split; [exact Hs | exact Hq].
Defined.

(** The chat is cleared while the reply to "hello" is being spoken. *)
Lemma C9_witness_speaking_reply :
  VoiceChat.isSpeaking (VoiceChat.view (VoiceChat.clearChat speaking_reply)) = false.
Proof.
  destruct (C9_clear_empties_transcript_stops_playback speaking_reply)
    as [_ [_ [_ [_ Hrun]]]].
  exact (Hrun speaking_reply_reachable).
Defined.

(* ================================================================== *)
(** ** A whole turn *)
(* ================================================================== *)

Section WholeTurn.
Import Js Http.

(** The system instruction of the request holds the title and the summary. *)
Example photosynthesis_prompt :
  systemInstruction env0 (Deployment.search_endpoint wikipedia_photosynthesis)
    "What is photosynthesis?"
  = VoiceChatRoute.basePrompt
    ++ VoiceChatRoute.searchBlock (VStr "Photosynthesis")
         (VStr "Photosynthesis is a system of biological processes.")
         (VStr "https://en.wikipedia.org/wiki/Photosynthesis").
Proof. vm_compute. reflexivity. Qed.

(** The transcript ends with the two turns, and every flag is down. *)
Example photosynthesis_transcript :
  Session.run photosynthesis_turn (VoiceChat.initial true (Some false))
  = Some (Session.after photosynthesis_turn (VoiceChat.initial true (Some false)))
  /\ VoiceChat.view (Session.after photosynthesis_turn (VoiceChat.initial true (Some false)))
     = {| VoiceChat.messages :=
            [ {| VoiceChat.role := VoiceChat.user;
                 VoiceChat.text := VStr "What is photosynthesis?";
                 VoiceChat.timestamp := 1 |};
              {| VoiceChat.role := VoiceChat.assistant;
                 VoiceChat.text := VStr "It's how plants make sugar from light.";
                 VoiceChat.timestamp := 2 |} ];
          VoiceChat.isListening := false;
          VoiceChat.isProcessing := false;
          VoiceChat.isSearching := false;
          VoiceChat.error := "";
          VoiceChat.isSpeaking := false |}.
Proof. split; vm_compute; reflexivity. Qed.
End WholeTurn.

(* ================================================================== *)
(** ** More on the search route *)
(* ================================================================== *)

Section SearchRoute.
Import Js Eff Http SearchWikipediaRoute.

Variable wikipedia : string -> fetch_result.

Ltac step_route :=
  cbn [lift bind app throw ret emit fst snd negb fetched flat_map].

(** The route and its log, for a request with a usable query. *)
Lemma search_route_log (body q : value) :
  get_prop body "query" = inr q -> truthy q = true ->
  snd (POST wikipedia (inr body)) = search_reply wikipedia q
  /\ fetched (fst (POST wikipedia (inr body)))
     = searchUrl q :: match hitTitle wikipedia q with
                      | Some t => [summaryUrl t]
                      | None => []
                      end.
Proof.
  intros Hq Ht. unfold POST, POST_try, destructure, search_reply, hitTitle.
  step_route. rewrite Hq. step_route. rewrite Ht. step_route. unfold fetch. step_route.
  destruct (wikipedia (searchUrl q)) as [e | r]; step_route; [split; reflexivity |].
  destruct (json r) as [e | data]; step_route; [split; reflexivity |].
  unfold firstTitle.
  destruct (get_prop data "query") as [e | qq]; step_route; [split; reflexivity |].
  destruct (truthy (opt_prop (opt_prop qq "search") "length")); step_route;
    [| split; reflexivity].
  destruct (get_prop qq "search") as [e | hits]; step_route; [split; reflexivity |].
  destruct (get_index hits 0) as [e | first]; step_route; [split; reflexivity |].
  destruct (get_prop first "title") as [e | t]; step_route; [split; reflexivity |].
  destruct (wikipedia (summaryUrl t)) as [e | r']; step_route; [split; reflexivity |].
  destruct (json r') as [e | d]; step_route; [split; reflexivity |].
  destruct (nullish d) eqn:Hd.
  - destruct d; try discriminate; split; reflexivity.
  - rewrite !(get_prop_opt_prop d _ Hd). split; reflexivity.
Qed.

(** X2.  The replies of the search route.  Whatever the request and
    whatever Wikipedia does, the reply is one of: 400 "Query missing", 500
    "Search error", 200 with no result, or 200 with exactly one result made
    of a title, a summary and a url. *)
Theorem search_route_replies (req_json : exn + value) :
  snd (POST wikipedia req_json) = query_missing
  \/ snd (POST wikipedia req_json) = search_error
  \/ snd (POST wikipedia req_json)
     = {| reply_status := 200; reply_body := VObj [("results", VArr [])] |}
  \/ exists title summary url,
       snd (POST wikipedia req_json)
       = {| reply_status := 200;
            reply_body :=
              VObj [("results",
                     VArr [VObj [("title", title); ("summary", summary); ("url", url)]])] |}.
Proof.
  destruct req_json as [e | body]; [right; left; reflexivity |].
  destruct (get_prop body "query") as [e | q] eqn:Hq.
  - right; left. unfold POST, POST_try, destructure. step_route. rewrite Hq. reflexivity.
  - destruct (truthy q) eqn:Ht.
    + rewrite (proj1 (search_route_log body q Hq Ht)). unfold search_reply.
      destruct (wikipedia (searchUrl q)) as [e | r]; [right; left; reflexivity |].
      destruct (json r) as [e | data]; [right; left; reflexivity |].
      destruct (firstTitle data) as [e | [t |]];
        [right; left; reflexivity | | right; right; left; reflexivity].
      destruct (wikipedia (summaryUrl t)) as [e | r']; [right; left; reflexivity |].
      destruct (json r') as [e | d]; [right; left; reflexivity |].
      destruct (nullish d); [right; left; reflexivity |].
      right; right; right. eexists; eexists; eexists. reflexivity.
    + left. rewrite (search_wikipedia_falsy_query wikipedia body q Hq Ht). reflexivity.
Qed.

End SearchRoute.


Section StatusBlind.
Import Js Eff Http SearchWikipediaRoute.

Variable w w' : string -> fetch_result.
Hypothesis same_documents : forall url, seen (w url) = seen (w' url).

Ltac same_fetch url :=
  let H := fresh "H" in
  pose proof (same_documents url) as H;
  destruct (w url) as [? | ?], (w' url) as [? | ?]; cbn [seen] in H;
  try discriminate H; injection H as H;
  cbn [lift bind app throw ret emit fst snd negb]; try rewrite H; clear H.

(** X4.  The search route does not look at the status of the responses of
    Wikipedia: two Wikipedias whose fetches are rejected alike and whose
    response bodies parse alike get the same reply, and the same log, for
    every request. *)
Theorem search_route_status_blind (req_json : exn + value) :
  POST w req_json = POST w' req_json.
Proof.
  unfold POST, POST_try, destructure, fetch.
  destruct req_json as [e | body]; [reflexivity |].
  cbn [lift bind app throw ret emit fst snd negb].
  destruct (get_prop body "query") as [e | q]; [reflexivity |].
  cbn [lift bind app throw ret emit fst snd negb].
  destruct (truthy q); cbn [lift bind app throw ret emit fst snd negb]; [| reflexivity].
  same_fetch (searchUrl q); [reflexivity |].
  destruct (json _) as [e | data]; [reflexivity |].
  cbn [lift bind app throw ret emit fst snd negb].
  destruct (get_prop data "query") as [e | qq]; [reflexivity |].
  cbn [lift bind app throw ret emit fst snd negb].
  destruct (truthy (opt_prop (opt_prop qq "search") "length"));
    cbn [lift bind app throw ret emit fst snd negb]; [| reflexivity].
  destruct (get_prop qq "search") as [e | hits]; [reflexivity |].
  cbn [lift bind app throw ret emit fst snd negb].
  destruct (get_index hits 0) as [e | first]; [reflexivity |].
  cbn [lift bind app throw ret emit fst snd negb].
  destruct (get_prop first "title") as [e | t]; [reflexivity |].
  cbn [lift bind app throw ret emit fst snd negb].
  same_fetch (summaryUrl t); reflexivity.
Qed.
End StatusBlind.

Lemma search_route_status_blind_witness :
  SearchWikipediaRoute.POST wikipedia_no_summary
    (inr (Js.VObj [("query", Js.VStr "what is zzyzx")]))
  = SearchWikipediaRoute.POST wikipedia_no_summary_200
      (inr (Js.VObj [("query", Js.VStr "what is zzyzx")])).
Proof.
  apply (search_route_status_blind wikipedia_no_summary wikipedia_no_summary_200).
  intros url. unfold wikipedia_no_summary, wikipedia_no_summary_200.
  destruct (Js.includes url "list=search"); reflexivity.
Defined.

(* ================================================================== *)
(** ** More on the voice-chat route *)
(* ================================================================== *)

Section VoiceRoute.
Import Js Eff Http VoiceChatRoute.

Variable env : process_env.
Variable search_endpoint : string -> value -> fetch_result.
Variable completions : string -> payload -> fetch_result.

Local Abbreviation voice_chat := (POST env search_endpoint completions).
Local Abbreviation request := (completionRequest env search_endpoint).

Lemma kind_utterance (req_json : exn + value) (m : string) :
  kind_of req_json = Utterance m ->
  exists body, req_json = inr body /\ get_prop body "message" = inr (VStr m) /\ m <> "".
Proof.
  unfold kind_of. destruct req_json as [e | body]; [discriminate |].
  destruct (get_prop body "message") as [e | msg] eqn:Hm; [discriminate |].
  destruct (truthy msg) eqn:Ht; [| discriminate].
  destruct msg; try discriminate. intros H. injection H as ->.
  exists body. split; [reflexivity |]. split; [exact Hm |].
  intros ->. discriminate.
Qed.

Lemma voice_chat_unusable (req_json : exn + value) :
  kind_of req_json = Unusable ->
  exists e, voice_chat req_json = ([ConsoleError "Voice chat API error:" e], server_error).
Proof.
  unfold kind_of. destruct req_json as [e | body]; [intros _; exists e; reflexivity |].
  destruct (get_prop body "message") as [e | msg] eqn:Hm.
  - intros _. eexists. unfold POST, POST_try, destructure. cbn [lift bind app].
    rewrite Hm. reflexivity.
  - destruct (truthy msg) eqn:Ht; [| discriminate].
    intros H. exists "message.toLowerCase is not a function".
    unfold POST, POST_try, destructure. cbn [lift bind app]. rewrite Hm. cbn [bind app]. rewrite Ht.
    destruct msg; try discriminate; reflexivity.
Qed.

Lemma voice_chat_missing (req_json : exn + value) :
  kind_of req_json = Missing -> voice_chat req_json = ([], message_missing).
Proof.
  unfold kind_of. destruct req_json as [e | body]; [discriminate |].
  destruct (get_prop body "message") as [e | msg] eqn:Hm; [discriminate |].
  destruct (truthy msg) eqn:Ht.
  - destruct msg; discriminate.
  - intros _. exact (voice_chat_falsy_message env search_endpoint completions body msg Hm Ht).
Qed.



Lemma voice_chat_reply_of_kind (req_json : exn + value) :
  snd (voice_chat req_json)
  = match kind_of req_json with
    | Unusable => server_error
    | Missing => message_missing
    | Utterance m =>
        match completions (authorization env) (request m) with
        | Rejected _ => server_error
        | Responded res =>
            if ok res then
              match json res with
              | inr data => {| reply_status := 200; reply_body := data |}
              | inl _ => server_error
              end
            else
              match Http.text res with
              | inr _ =>
                  if Z.leb 300 (status res) && Z.leb (status res) 599
                     && negb (Z.eqb (status res) 304)
                  then
                    {| reply_status := status res;
                       reply_body := VObj [("error", VStr "Failed to get AI response")] |}
                  else server_error
              | inl _ => server_error
              end
        end
    end.
Proof.
  destruct (kind_of req_json) as [ | | m] eqn:K.
  - destruct (voice_chat_unusable req_json K) as [e ->]. reflexivity.
  - rewrite (voice_chat_missing req_json K). reflexivity.
  - destruct (kind_utterance req_json m K) as [body [-> [Hm Hne]]].
    rewrite (POST_run env search_endpoint completions body m Hm Hne). cbv zeta.
    unfold conclude.
    destruct (completions _ _) as [e | res]; [reflexivity |].
    destruct (ok res) eqn:Hok.
    + destruct (json res); reflexivity.
    + destruct (Http.text res); [reflexivity |].
      assert (E : with_body_status (status res)
                  = Z.leb 300 (status res) && Z.leb (status res) 599
                    && negb (Z.eqb (status res) 304)).
      { unfold ok, between in Hok. unfold with_body_status, null_body_status, between.
        cbn [existsb]. lia. }
      rewrite E. destruct (_ && _ && _); reflexivity.
Qed.


(** X7.  What the lookup hands to its caller is [null] or a truthy value,
    whatever the service behind it answers: the test [if (searchResult)] of
    the handler tells the two apart. *)
Theorem searchWikipedia_null_or_truthy (query : value) :
  snd (searchWikipedia env search_endpoint query) = VNull
  \/ truthy (snd (searchWikipedia env search_endpoint query)) = true.
Proof.
  unfold searchWikipedia, searchWikipedia_try. cbn [emit bind app]. unfold resolve.
  destruct (search_endpoint _ _) as [e | r]; cbn [throw ret lift bind app snd];
    [left; reflexivity |].
  destruct (json r) as [e | data]; cbn [bind app snd]; [left; reflexivity |].
  destruct (get_prop data "results") as [e | results]; cbn [ret bind app snd];
    [left; reflexivity |].
  unfold or_else. destruct (truthy (opt_index results 0)) eqn:Ht;
    [right; exact Ht | left; reflexivity].
Qed.
End VoiceRoute.

(* ================================================================== *)
(** ** More on the component *)
(* ================================================================== *)

Section Transcripts.
Import Js Http VoiceChat.

Lemma trimStart_empty (s : string) : trimStart s = "" <-> all_space s = true.
Proof.
  induction s as [| c s IH]; cbn [trimStart all_space]; [tauto |].
  destruct (is_space c); cbn [andb]; [exact IH |]. split; discriminate.
Qed.

Lemma trimStart_head (s : string) :
  match trimStart s with
  | EmptyString => True
  | String c _ => is_space c = false
  end.
Proof.
  induction s as [| c s IH]; cbn [trimStart]; [exact I |].
  destruct (is_space c) eqn:E; [exact IH | exact E].
Qed.

Lemma trimEnd_empty (c : ascii) (s : string) :
  trimEnd (String c s) = "" -> is_space c = true.
Proof.
  cbn [trimEnd]. destruct (trimEnd s); [| discriminate].
  destruct (is_space c); [reflexivity | discriminate].
Qed.

(** [transcript.trim()] is the empty string exactly for a blank transcript. *)
Lemma trim_empty (s : string) : trim s = "" <-> all_space s = true.
Proof.
  unfold trim. rewrite <- trimStart_empty. split.
  - intros H. pose proof (trimStart_head s) as Hh.
    destruct (trimStart s) as [| c r]; [reflexivity |].
    apply trimEnd_empty in H. congruence.
  - intros ->. reflexivity.
Qed.

Lemma truthy_trim (s : string) : truthy (VStr (trim s)) = negb (all_space s).
Proof.
  cbn [truthy]. destruct (all_space s) eqn:E.
  - apply trim_empty in E. rewrite E. reflexivity.
  - destruct (String.eqb (trim s) "") eqn:T; [| reflexivity].
    apply String.eqb_eq in T. apply trim_empty in T. congruence.
Qed.

Lemma onresult_cases (now : Z) (transcript : string) (s : State) :
  if all_space transcript then
    recognition_onresult now transcript s = s
  else
    messages (view (recognition_onresult now transcript s))
    = (messages (view s)
       ++ [ {| role := user; text := VStr transcript; timestamp := now |} ])%list
    /\ calls_since s (recognition_onresult now transcript s)
         [ SetMessages_append {| role := user; text := VStr transcript; timestamp := now |};
           SetIsProcessing true; SetIsSearching true; FetchVoiceChat transcript ]
    /\ isProcessing (view (recognition_onresult now transcript s)) = true
    /\ isSearching (view (recognition_onresult now transcript s)) = true.
Proof.
  unfold recognition_onresult. rewrite truthy_trim.
  destruct (all_space transcript); cbn [negb]; [reflexivity |].
  unfold calls_since. cbn. rewrite <- !app_assoc. repeat split; reflexivity.
Qed.

(** X8.  A blank transcript (empty, or white space only) is dropped: the
    state is left as it was, no message, no request.  Any other transcript
    is appended to the transcript as a user message and sent to the route,
    both as it was recognised, untrimmed; the Processing and Searching
    flags go up. *)
Theorem recognition_onresult_blank_or_sent (now : Z) (transcript : string) (s : State) :
  if all_space transcript then
    recognition_onresult now transcript s = s
  else
    messages (view (recognition_onresult now transcript s))
    = (messages (view s)
       ++ [ {| role := user; text := VStr transcript; timestamp := now |} ])%list
    /\ calls_since s (recognition_onresult now transcript s)
         [ SetMessages_append {| role := user; text := VStr transcript; timestamp := now |};
           SetIsProcessing true; SetIsSearching true; FetchVoiceChat transcript ]
    /\ isProcessing (view (recognition_onresult now transcript s)) = true
    /\ isSearching (view (recognition_onresult now transcript s)) = true.
Proof. exact (onresult_cases now transcript s). Qed.

Lemma resume_messages (now : Z) (r : fetch_result) (s : State) :
  messages (view (sendMessage_resume now r s))
  = match completion r with
    | inr reply =>
        (messages (view s)
         ++ [ {| role := assistant; text := reply; timestamp := now |} ])%list
    | inl _ => messages (view s)
    end.
Proof.
  unfold sendMessage_resume. destruct r as [e | res]; cbn [completion]; [reflexivity |].
  destruct (readReply res) as [e | reply]; [reflexivity |].
  unfold speakText. cbn [setMessages_append setIsSearching call browser].
  destruct (speechSynthesis (browser s)); reflexivity.
Qed.
End Transcripts.

Section Replies.
Import Js Http VoiceChat.

Lemma or_else_truthy (a b : value) : truthy b = true -> truthy (or_else a b) = true.
Proof. intros Hb. unfold or_else. destruct (truthy a) eqn:E; [exact E | exact Hb]. Qed.

(** A reply is never empty: a missing or falsy content is replaced by the
    sentinel. *)
Lemma completion_truthy (r : fetch_result) (reply : value) :
  completion r = inr reply -> truthy reply = true.
Proof.
  destruct r as [e | res]; [discriminate |]. cbn [completion]. unfold readReply.
  destruct (negb (ok res)).
  - destruct (get_prop _ "error"); discriminate.
  - destruct (json res) as [e | data]; [discriminate |].
    destruct (get_prop data "error") as [e | err]; [discriminate |].
    destruct (truthy err); [discriminate |].
    destruct (get_prop data "choices") as [e | choices]; [discriminate |].
    intros H. injection H as <-. apply or_else_truthy. reflexivity.
Qed.

(** X9.  The reply read off a successful response.  With a success status,
    a JSON document other than [null] and no truthy [error] in it, the reply
    is the content of the message of the first choice when that is truthy,
    and the text "No reply received" otherwise (no choices, no first choice,
    no message, no content, empty content). *)
Theorem completion_reply_or_sentinel (res : response) (data : value) :
  ok res = true -> json res = inr data -> nullish data = false ->
  truthy (opt_prop data "error") = false ->
  completion (Responded res)
  = inr (let content :=
           opt_prop (opt_prop (opt_index (opt_prop data "choices") 0) "message") "content" in
         if truthy content then content else VStr "No reply received").
Proof.
  intros Hok Hjson Hn Herr. cbn [completion]. unfold readReply.
  rewrite Hok, Hjson. cbn [negb].
  rewrite !(get_prop_opt_prop data _ Hn), Herr. reflexivity.
Qed.


Lemma sendMessage_resume_settles_failure (now : Z) (r : fetch_result) (s : State)
    (e : exn) :
  completion r = inl e ->
  error (view (sendMessage_resume now r s))
  = (if String.eqb e "" then "Error sending message. Please try again." else e)
  /\ messages (view (sendMessage_resume now r s)) = messages (view s).
Proof.
  intros E. unfold sendMessage_resume. rewrite E.
  destruct r as [x | res]; split; reflexivity.
Qed.

End Replies.

Section MoreRuns.
Import Js Http VoiceChat Session.

Ltac handlers :=
  unfold clearChat, listening_timeout, startListening, recognition_onstart,
    recognition_onerror, recognition_onend,
    utterance_onstart, utterance_onend, utterance_onerror;
  unfold stopListening, stopSpeaking, sendMessage, sendMessage_catch, speakText,
    playback_over, recognition_start;
  unfold recognition_stop, synth_cancel, synth_speak, with_speaking,
    setMessages_append, setMessages_clear, setIsListening, setIsProcessing,
    setIsSearching, setError, setIsSpeaking, console_error, call.

Ltac fields :=
  cbn [view browser log recognitionRef messages isSpeaking isListening isProcessing
       isSearching error created hasSpeechRecognition speechSynthesis negb].

Ltac cases :=
  repeat match goal with
         | |- context [match ?x with _ => _ end] => destruct x eqn:?
         | |- context [if ?x then _ else _] => destruct x eqn:?
         end.

(** What one event does to the transcript: it empties it ([clearChat]), or
    it leaves it, or it adds one sound message at its end. *)
Lemma handle_messages (e : event) (s : State) :
  (e = Call_clearChat /\ messages (view (handle e s)) = [])
  \/ (e <> Call_clearChat
      /\ (messages (view (handle e s)) = messages (view s)
          \/ exists m, sound_message m
                       /\ messages (view (handle e s)) = (messages (view s) ++ [m])%list)).
Proof.
  destruct e; cbn [handle];
    try (right; split; [discriminate |]; left;
         destruct s as [[ms li pr se er sp] ref [hr cr sy] lg];
         handlers; fields; cases; reflexivity).
  - left. split; [reflexivity |].
    destruct s as [[ms li pr se er sp] ref [hr cr sy] lg].
    handlers; fields; cases; reflexivity.
  - right. split; [discriminate |].
    pose proof (onresult_cases now transcript s) as H.
    destruct (all_space transcript) eqn:E.
    + left. rewrite H. reflexivity.
    + right. destruct H as [H _]. eexists. split; [| exact H].
      unfold sound_message. cbn [role text]. exists transcript. split; [reflexivity | exact E].
  - right. split; [discriminate |].
    pose proof (resume_messages now r s) as H.
    destruct (completion r) as [e | reply] eqn:E.
    + left. exact H.
    + right. eexists. split; [| exact H].
      unfold sound_message. cbn [role text]. exact (completion_truthy r reply E).
Qed.
(** X12.  The transcript only grows at its end: an event other than
    [clearChat] leaves the messages it finds where they are, in their
    order, and adds at most one after them. *)
Theorem transcript_append_only (e : event) (s : State) :
  e <> Call_clearChat ->
  exists added,
    messages (view (handle e s)) = (messages (view s) ++ added)%list
    /\ (List.length added <= 1)%nat.
Proof.
  intros Hne. destruct (handle_messages e s) as [[He _] | [_ [H | [m [_ H]]]]].
  - contradiction.
  - exists []. rewrite app_nil_r. split; [exact H | cbn; lia].
  - exists [m]. split; [exact H | cbn; lia].
Qed.

(** X13.  In every run, every message of the transcript is sound: a user
    message holds a transcript that is not blank, an assistant message a
    truthy value (the reply, or the sentinel text). *)
Theorem transcript_sound (s : State) :
  reachable s -> Forall sound_message (messages (view s)).
Proof.
  induction 1 as [hasRecognition synthesis | s e _ IH En].
  - constructor.
  - destruct (handle_messages e s) as [[_ H] | [_ [H | [m [Hm H]]]]]; rewrite H.
    + constructor.
    + exact IH.
    + apply Forall_app. split; [exact IH |]. constructor; [exact Hm | constructor].
Qed.

Lemma grounded_initial (hasRecognition : bool) (synthesis : option bool) :
  grounded (initial hasRecognition synthesis).
Proof. unfold grounded. cbn. intuition (try discriminate; try congruence). Qed.

Lemma app_not_nil {A : Type} (l : list A) (a : A) : (l ++ [a])%list <> [].
Proof. destruct l; discriminate. Qed.

Lemma grounded_step (s : State) (e : event) :
  causal s -> grounded s -> enabled e s = true -> grounded (handle e s).
Proof.
  destruct s as [[ms li pr se er sp] ref [hr cr sy] lg].
  destruct e; cbn [handle enabled];
    unfold causal, grounded, recognizing, requested, uttered;
    unfold recognition_onresult, sendMessage_resume; rewrite ?truthy_trim;
    handlers; fields;
    try match goal with
        | |- context [completion ?r] =>
            destruct r as [? | ?]; cbn [completion];
            [| match goal with |- context [readReply ?x] => destruct (readReply x) end]
        end;
    intros C G En; cases; fields;
    rewrite ?existsb_app; cbn [existsb is_request is_speak orb Nat.eqb negb];
    rewrite ?orb_false_r, ?orb_true_r;
    repeat match goal with
           | H : negb ?b = _ |- _ => destruct b; cbn [negb] in H; try discriminate H
           end;
    pose proof (@app_not_nil Message) as Hnil;
    intuition (try discriminate; try congruence; eauto).
Qed.

Lemma reachable_grounded (s : State) : reachable s -> grounded s.
Proof.
  induction 1 as [hasRecognition synthesis | s e R IH En].
  - apply grounded_initial.
  - exact (grounded_step s e (reachable_causal s R) IH En).
Qed.

(** X14.  In every run, when the timer of the capture goes off the capture
    is stopped: [stop()] is called on the current recognition object, the
    Listening flag goes down and the time-out text is shown; the
    transcript is not touched. *)
Theorem listening_timeout_stops (s : State) :
  reachable s -> isListening (view s) = true ->
  exists id,
    recognitionRef s = Some id
    /\ calls_since s (listening_timeout s)
         [ Recognition_stop id; SetIsListening false;
           SetError "Listening timed out. Please try again." ]
    /\ isListening (view (listening_timeout s)) = false
    /\ error (view (listening_timeout s)) = "Listening timed out. Please try again."
    /\ messages (view (listening_timeout s)) = messages (view s).
Proof.
  intros R Hl. destruct (reachable_grounded s R) as [[Href Hcr] [Hlis _]].
  specialize (Hlis Hl). unfold recognizing in Hlis.
  destruct (recognitionRef s) as [id |] eqn:E.
  - exists id. unfold listening_timeout, stopListening, calls_since. rewrite E.
    cbn. rewrite <- !app_assoc. repeat split; reflexivity.
  - rewrite (Href eq_refl) in Hlis. discriminate.
Qed.

(** X15.  In a browser without speech recognition nothing ever happens: in
    every run the transcript stays empty, no flag goes up, no recognition
    object exists, no request is sent and nothing is spoken. *)
Theorem without_recognition_inert (s : State) :
  reachable s -> hasSpeechRecognition (browser s) = false ->
  messages (view s) = []
  /\ isListening (view s) = false
  /\ isProcessing (view s) = false
  /\ isSearching (view s) = false
  /\ isSpeaking (view s) = false
  /\ recognitionRef s = None
  /\ requested s = false
  /\ uttered s = false.
Proof.
  intros R Hrec.
  destruct (reachable_causal s R) as [C1 [C2 [C3 [C4 C5]]]].
  destruct (reachable_grounded s R) as [[G1 G1'] [G2 [G3 [G4 G5]]]].
  assert (N : recognizing s = false).
  { destruct (recognizing s); [| reflexivity]. rewrite (C1 eq_refl) in Hrec. discriminate. }
  assert (Q : requested s = false).
  { destruct (requested s); [| reflexivity]. rewrite (C2 eq_refl) in N. discriminate. }
  assert (U : uttered s = false).
  { destruct (uttered s); [| reflexivity]. rewrite (C3 eq_refl) in Q. discriminate. }
  repeat split; try assumption.
  - destruct (messages (view s)) as [| m ms]; [reflexivity |].
    assert (F : recognizing s = true) by (apply G3; discriminate). congruence.
  - destruct (isListening (view s)); [| reflexivity]. rewrite (G2 eq_refl) in N. discriminate.
  - destruct (isProcessing (view s)); [| reflexivity]. rewrite (G4 eq_refl) in Q. discriminate.
  - destruct (isSearching (view s)); [| reflexivity]. rewrite (G5 eq_refl) in Q. discriminate.
  - destruct (isSpeaking (view s)); [| reflexivity]. rewrite (C5 eq_refl) in U. discriminate.
  - apply G1'. unfold recognizing in N. destruct (created (browser s)); [reflexivity | discriminate].
Qed.

Lemma cancel_first_any (b : bool) (l : list action) :
  cancel_first false l = true -> cancel_first b l = true.
Proof. destruct l as [| a l]; [reflexivity |]. destruct a; cbn; try tauto. discriminate. Qed.

Lemma cancel_first_app (b : bool) (l l' : list action) :
  cancel_first b l = true -> cancel_first false l' = true ->
  cancel_first b (l ++ l') = true.
Proof.
  revert b. induction l as [| a l IH]; intros b Hl Hl'; cbn [app].
  - apply cancel_first_any. exact Hl'.
  - destruct a; cbn [cancel_first] in *; try (apply IH; assumption).
    apply andb_true_iff in Hl. destruct Hl as [-> Hl]. cbn. apply IH; assumption.
Qed.

Lemma cancel_first_spec (b : bool) (l pre post : list action) (t : value) :
  cancel_first b l = true -> l = (pre ++ Synth_speak t :: post)%list ->
  (pre = [] /\ b = true) \/ exists pre', pre = (pre' ++ [Synth_cancel])%list.
Proof.
  revert b pre. induction l as [| a l IH]; intros b pre Hl E.
  - destruct pre; discriminate.
  - destruct pre as [| a' pre]; cbn [app] in E; injection E as -> E.
    + left. cbn [cancel_first] in Hl. apply andb_true_iff in Hl. tauto.
    + right.
      assert (K : forall b', cancel_first b' l = true ->
                  (pre = [] /\ b' = true) \/ exists pre', pre = (pre' ++ [Synth_cancel])%list)
        by (intros b' H; exact (IH b' pre H E)).
      destruct a'; cbn [cancel_first] in Hl;
        try (destruct (K false Hl) as [[_ F] | [pre' ->]];
             [discriminate | eexists (_ :: pre'); reflexivity]).
      * destruct (K true Hl) as [[-> _] | [pre' ->]];
          [exists []; reflexivity | eexists (_ :: pre'); reflexivity].
      * apply andb_true_iff in Hl. destruct Hl as [_ Hl].
        destruct (K false Hl) as [[_ F] | [pre' ->]];
          [discriminate | eexists (_ :: pre'); reflexivity].
Qed.

Lemma handle_calls (e : event) (s : State) :
  exists calls, log (handle e s) = (log s ++ calls)%list /\ cancel_first false calls = true.
Proof.
  destruct s as [[ms li pr se er sp] ref [hr cr sy] lg].
  destruct e; cbn [handle];
    unfold recognition_onresult, sendMessage_resume; handlers; fields;
    try match goal with
        | |- context [completion ?r] =>
            destruct r as [? | ?]; cbn [completion];
            [| match goal with |- context [readReply ?x] => destruct (readReply x) end]
        end;
    cases; fields; rewrite <- ?app_assoc; cbn [app];
    first [ exists []; split; [rewrite app_nil_r; reflexivity | reflexivity]
          | eexists; split; [reflexivity | reflexivity] ].
Qed.

Lemma reachable_cancel_first (s : State) : reachable s -> cancel_first false (log s) = true.
Proof.
  induction 1 as [hasRecognition synthesis | s e _ IH En]; [reflexivity |].
  destruct (handle_calls e s) as [calls [-> Hc]].
  exact (cancel_first_app false (log s) calls IH Hc).
Qed.

(** X16.  In every run, each utterance handed to the speech engine comes
    right after a [cancel()]: the component never queues a reply behind
    one that is being spoken. *)
Theorem speak_right_after_cancel (s : State) (pre post : list action) (t : value) :
  reachable s -> log s = (pre ++ Synth_speak t :: post)%list ->
  exists pre', pre = (pre' ++ [Synth_cancel])%list.
Proof.
  intros R E.
  destruct (cancel_first_spec false (log s) pre post t (reachable_cancel_first s R) E)
    as [[_ F] | H]; [discriminate | exact H].
Qed.
End MoreRuns.

(* ================================================================== *)
(** ** The component in front of the route *)
(* ================================================================== *)

Section EndToEnd.
Import Js Http.

Lemma toLowerCase_app (a b : string) :
  toLowerCase (a ++ b) = toLowerCase a ++ toLowerCase b.
Proof. induction a as [| c a IH]; cbn; [reflexivity | rewrite IH; reflexivity]. Qed.

(** X17.  The classifier looks for the markers anywhere: an utterance that
    contains, as a part, an utterance classified as factual is classified
    as factual too, whatever stands before and after it. *)
Theorem needsSearch_in_context (pre U post : string) :
  VoiceChatRoute.needsSearch U = true ->
  VoiceChatRoute.needsSearch (pre ++ U ++ post) = true.
Proof.
  intros H. apply needsSearch_true_iff in H. destruct H as [k [Hk [a [b Hocc]]]].
  apply needsSearch_true_iff. exists k. split; [exact Hk |].
  exists (toLowerCase pre ++ a), (b ++ toLowerCase post).
  rewrite !toLowerCase_app, Hocc, !append_assoc. reflexivity.
Qed.

(** The component reads the error of a refusal of the route. *)
Lemma refusal_read (st : Z) (msg : string) :
  between 200 299 st = false -> msg <> "" ->
  VoiceChat.completion
    (Deployment.served {| reply_status := st; reply_body := error_body msg |})
  = inl msg.
Proof.
  intros Hst Hmsg. unfold Deployment.served, error_body.
  cbn [reply_body reply_status json_roundtrip VoiceChat.completion].
  unfold VoiceChat.readReply, ok. cbn [status json]. rewrite Hst. cbn [negb get_prop assoc].
  rewrite String.eqb_refl. unfold or_else, VoiceChat.Error_message. cbn [truthy].
  apply String.eqb_neq in Hmsg. rewrite Hmsg. reflexivity.
Qed.

Variable env : VoiceChatRoute.process_env.
Variable wikipedia : string -> fetch_result.
Variable completions : string -> VoiceChatRoute.payload -> fetch_result.

(** X18.  Every refusal of the service reaches the user as one of three
    fixed texts.  When the deployed route answers a request with a status
    other than 200, the component takes the completion as failed with the
    error of the reply, which is "Message missing", "Failed to get AI
    response" or "Server error", and shows that text. *)
Theorem refusals_surface (req_json : exn + value) (now : Z) (s : VoiceChat.State) :
  reply_status (snd (Deployment.voice_chat wikipedia env completions req_json)) <> 200 ->
  exists msg,
    In msg ["Message missing"; "Failed to get AI response"; "Server error"]
    /\ VoiceChat.completion
         (Deployment.served (snd (Deployment.voice_chat wikipedia env completions req_json)))
       = inl msg
    /\ VoiceChat.error
         (VoiceChat.view
            (VoiceChat.sendMessage_resume now
               (Deployment.served
                  (snd (Deployment.voice_chat wikipedia env completions req_json))) s))
       = msg.
Proof.
  intros Hst.
  assert (K : forall st msg, between 200 299 st = false -> msg <> "" ->
              snd (Deployment.voice_chat wikipedia env completions req_json)
              = {| reply_status := st; reply_body := error_body msg |} ->
              VoiceChat.completion
                (Deployment.served
                   (snd (Deployment.voice_chat wikipedia env completions req_json)))
              = inl msg
              /\ VoiceChat.error
                   (VoiceChat.view
                      (VoiceChat.sendMessage_resume now
                         (Deployment.served
                            (snd (Deployment.voice_chat wikipedia env completions req_json)))
                         s))
                 = msg).
  { intros st msg Hs Hm E. rewrite E.
    pose proof (refusal_read st msg Hs Hm) as R. split; [exact R |].
    destruct (sendMessage_resume_settles_failure now _ s msg R) as [He _].
    rewrite He. apply String.eqb_neq in Hm. rewrite Hm. reflexivity. }
  unfold Deployment.voice_chat in *.
  pose proof (voice_chat_reply_of_kind env (Deployment.search_endpoint wikipedia)
                completions req_json) as R.
  destruct (kind_of req_json) as [ | | m].
  - exists "Server error". split; [cbn; tauto |].
    apply (K 500); [reflexivity | discriminate | exact R].
  - exists "Message missing". split; [cbn; tauto |].
    apply (K 400); [reflexivity | discriminate | exact R].
  - destruct (completions _ _) as [e | res].
    + exists "Server error". split; [cbn; tauto |].
      apply (K 500); [reflexivity | discriminate | exact R].
    + destruct (ok res) eqn:Hok.
      * destruct (json res) as [e | data].
        -- exists "Server error". split; [cbn; tauto |].
           apply (K 500); [reflexivity | discriminate | exact R].
        -- rewrite R in Hst. cbn in Hst. contradiction.
      * destruct (Http.text res) as [e | err].
        -- exists "Server error". split; [cbn; tauto |].
           apply (K 500); [reflexivity | discriminate | exact R].
        -- destruct (Z.leb 300 (status res) && Z.leb (status res) 599
                     && negb (Z.eqb (status res) 304)).
           ++ exists "Failed to get AI response". split; [cbn; tauto |].
              apply (K (status res)); [exact Hok | discriminate | exact R].
           ++ exists "Server error". split; [cbn; tauto |].
              apply (K 500); [reflexivity | discriminate | exact R].
Qed.
End EndToEnd.

(* ================================================================== *)
(** ** Instances *)
(* ================================================================== *)

Lemma capturing_reachable : Session.reachable capturing.
Proof.
  apply (run_reachable [Session.Call_startListening; Session.Recognition_onstart]
           (VoiceChat.initial true (Some false)) capturing
           (Session.reach_initial true (Some false))).
  vm_compute. reflexivity.
Qed.

Lemma refused_reachable : Session.reachable refused.
Proof.
  apply (run_reachable [Session.Call_startListening]
           (VoiceChat.initial false (Some false)) refused
           (Session.reach_initial false (Some false))).
  vm_compute. reflexivity.
Qed.

(** A success without choices gives the sentinel. *)
Lemma completion_reply_or_sentinel_witness :
  VoiceChat.completion (Http.Responded (json_response 200 (Js.VObj [])))
  = inr (Js.VStr "No reply received").
Proof.
  exact (completion_reply_or_sentinel (json_response 200 (Js.VObj [])) (Js.VObj [])
           eq_refl eq_refl eq_refl eq_refl).
Defined.


(** The first utterance of a session. *)
Lemma transcript_append_only_witness :
  exists added,
    VoiceChat.messages
      (VoiceChat.view
         (Session.handle (Session.Recognition_onresult 1 "hello") capturing))
    = (VoiceChat.messages (VoiceChat.view capturing) ++ added)%list
    /\ (List.length added <= 1)%nat.
Proof.
  apply (transcript_append_only (Session.Recognition_onresult 1 "hello") capturing).
  discriminate.
Defined.

Lemma transcript_sound_witness :
  Forall sound_message (VoiceChat.messages (VoiceChat.view speaking_reply)).
Proof. exact (transcript_sound speaking_reply speaking_reply_reachable). Defined.

Lemma listening_timeout_stops_witness :
  exists id,
    VoiceChat.recognitionRef capturing = Some id
    /\ calls_since capturing (VoiceChat.listening_timeout capturing)
         [ VoiceChat.Recognition_stop id; VoiceChat.SetIsListening false;
           VoiceChat.SetError "Listening timed out. Please try again." ]
    /\ VoiceChat.isListening (VoiceChat.view (VoiceChat.listening_timeout capturing)) = false
    /\ VoiceChat.error (VoiceChat.view (VoiceChat.listening_timeout capturing))
       = "Listening timed out. Please try again."
    /\ VoiceChat.messages (VoiceChat.view (VoiceChat.listening_timeout capturing))
       = VoiceChat.messages (VoiceChat.view capturing).
Proof. exact (listening_timeout_stops capturing capturing_reachable eq_refl). Defined.

Lemma without_recognition_inert_witness :
  VoiceChat.messages (VoiceChat.view refused) = []
  /\ Session.requested refused = false.
Proof.
  destruct (without_recognition_inert refused refused_reachable eq_refl)
    as [Hm [_ [_ [_ [_ [_ [Hq _]]]]]]].
  split; [exact Hm | exact Hq].
Defined.

Lemma speak_right_after_cancel_witness :
  exists pre',
    firstn 12 (VoiceChat.log speaking_reply) = (pre' ++ [VoiceChat.Synth_cancel])%list.
Proof.
  apply (speak_right_after_cancel speaking_reply
           (firstn 12 (VoiceChat.log speaking_reply))
           (skipn 13 (VoiceChat.log speaking_reply))
           (Js.VStr "Hi there.") speaking_reply_reachable).
  vm_compute. reflexivity.
Defined.

Lemma needsSearch_in_context_witness :
  VoiceChatRoute.needsSearch ("Please " ++ "tell me about gravity" ++ ", now") = true.
Proof.
  apply (needsSearch_in_context "Please " "tell me about gravity" ", now").
  reflexivity.
Defined.

(** The completion API cannot be reached. *)
Lemma refusals_surface_witness :
  exists msg,
    In msg ["Message missing"; "Failed to get AI response"; "Server error"]
    /\ VoiceChat.completion
         (Deployment.served
            (snd (Deployment.voice_chat no_wikipedia env0 no_completions (inr hello))))
       = inl msg
    /\ VoiceChat.error
         (VoiceChat.view
            (VoiceChat.sendMessage_resume 2
               (Deployment.served
                  (snd (Deployment.voice_chat no_wikipedia env0 no_completions (inr hello))))
               capturing))
       = msg.
Proof.
  apply (refusals_surface env0 no_wikipedia no_completions (inr hello) 2 capturing).
  vm_compute. discriminate.
Defined.

(* ================================================================== *)
(** ** Further edges *)
(* ================================================================== *)

Section LookupStatusBlind.
Import Js Eff Http VoiceChatRoute.

Variable env : process_env.
Variable endpoint endpoint' : string -> value -> fetch_result.
Hypothesis same_documents :
  forall url body, seen (endpoint url body) = seen (endpoint' url body).

(** X19.  The lookup does not look at the status of the response of the
    search route: two services whose fetches are rejected alike and whose
    response bodies parse alike give the same lookup result and the same
    log, for every query. *)
Theorem searchWikipedia_status_blind (query : value) :
  searchWikipedia env endpoint query = searchWikipedia env endpoint' query.
Proof.
  unfold searchWikipedia, searchWikipedia_try, resolve. cbn [emit bind app].
  pose proof (same_documents (baseUrl env ++ "/api/search-wikipedia")
                (VObj [("query", query)])) as H.
  destruct (endpoint _ _) as [e | r], (endpoint' _ _) as [e' | r']; cbn [seen] in H;
    try discriminate H; injection H as H; cbn [throw ret lift bind app].
  - rewrite H. reflexivity.
  - rewrite H. reflexivity.
Qed.
End LookupStatusBlind.

Lemma searchWikipedia_status_blind_witness :
  VoiceChatRoute.searchWikipedia env0
    (fun _ _ => Http.Responded (json_response 500 (Js.VObj [("results", Js.VArr [hello])])))
    (Js.VStr "what is zzyzx")
  = VoiceChatRoute.searchWikipedia env0
      (fun _ _ => Http.Responded (json_response 200 (Js.VObj [("results", Js.VArr [hello])])))
      (Js.VStr "what is zzyzx").
Proof.
  apply (searchWikipedia_status_blind env0
           (fun _ _ => Http.Responded (json_response 500 (Js.VObj [("results", Js.VArr [hello])])))
           (fun _ _ => Http.Responded (json_response 200 (Js.VObj [("results", Js.VArr [hello])])))).
  intros url body. reflexivity.
Defined.

Section MissingFields.
Import Js Eff Http VoiceChatRoute.

Variable env : process_env.
Variable search_endpoint : string -> value -> fetch_result.
Variable completions : string -> payload -> fetch_result.

End MissingFields.

Section LateReply.
Import Js Http VoiceChat.

(** X21.  A reply is appended whenever it arrives: when the chat is cleared
    while the request is pending, the reply that comes later becomes the
    only message of the transcript, an assistant message without the user
    message it answers. *)
Theorem reply_after_clear (now : Z) (r : fetch_result) (reply : value) (s : State) :
  completion r = inr reply ->
  messages (view (sendMessage_resume now r (clearChat s)))
  = [ {| role := assistant; text := reply; timestamp := now |} ].
Proof.
  intros E. rewrite resume_messages, E.
  assert (C : messages (view (clearChat s)) = []).
  { unfold clearChat, stopSpeaking. cbn [setError setMessages_clear call browser].
    destruct (speechSynthesis (browser s)); reflexivity. }
  rewrite C. reflexivity.
Qed.
End LateReply.

Lemma reply_after_clear_witness :
  VoiceChat.messages
    (VoiceChat.view
       (VoiceChat.sendMessage_resume 2
          (Http.Responded (json_response 200 (one_choice "Hi there.")))
          (VoiceChat.clearChat capturing)))
  = [ {| VoiceChat.role := VoiceChat.assistant;
         VoiceChat.text := Js.VStr "Hi there.";
         VoiceChat.timestamp := 2 |} ].
Proof.
  exact (reply_after_clear 2 (Http.Responded (json_response 200 (one_choice "Hi there.")))
           (Js.VStr "Hi there.") capturing eq_refl).
Defined.


(* ================================================================== *)
(** ** The lookup behind any endpoint *)
(* ================================================================== *)

Section LookupAnyEndpoint.
Import Js Eff Http VoiceChatRoute.

Variable env : process_env.
Variable search_endpoint : string -> value -> fetch_result.
Variable completions : string -> payload -> fetch_result.

(** X22.  The lookup of the voice-chat route, whatever answers behind its
    endpoint.  It makes one call.  A rejected call, a response body that is
    not JSON and a document that is [null] are each caught: the exception
    is logged and the lookup comes back empty.  Otherwise the lookup is the
    first element of [results] when that is truthy, and empty when it is
    not; the status of the response plays no part. *)
Theorem searchWikipedia_absorbs (query : value) :
  let url := baseUrl env ++ "/api/search-wikipedia" in
  let body := VObj [("query", query)] in
  let caught e :=
    ([FetchSearch url body; ConsoleError "Wikipedia search failed:" e], VNull) in
  searchWikipedia env search_endpoint query
  = match search_endpoint url body with
    | Rejected e => caught e
    | Responded r =>
        match json r with
        | inl e => caught e
        | inr data =>
            if nullish data then caught (type_error data "results")
            else ([FetchSearch url body],
                  or_else (opt_index (opt_prop data "results") 0) VNull)
        end
    end.
Proof.
  cbv zeta. unfold searchWikipedia, searchWikipedia_try.
  cbn [emit bind]. unfold resolve.
  destruct (search_endpoint _ _) as [e | r]; cbn [throw ret lift bind app]; [reflexivity |].
  destruct (json r) as [e | data]; cbn [bind app]; [reflexivity |].
  destruct (nullish data) eqn:Hn.
  - destruct data; try discriminate; reflexivity.
  - rewrite (get_prop_opt_prop data "results" Hn). reflexivity.
Qed.

(** X23.  An empty lookup does not fail the turn, whatever made it empty:
    the completion request is made with the base prompt alone. *)
Theorem absent_lookup_proceeds (body : value) (m : string) :
  get_prop body "message" = inr (VStr m) -> m <> "" ->
  snd (searchWikipedia env search_endpoint (VStr m)) = VNull ->
  completionRequest env search_endpoint m = mkPayload basePrompt m
  /\ In (FetchCompletion (authorization env) (mkPayload basePrompt m))
        (fst (POST env search_endpoint completions (inr body))).
Proof.
  intros Hm Hne Hnull.
  assert (P : completionRequest env search_endpoint m = mkPayload basePrompt m).
  { unfold completionRequest, systemInstruction, lookupResult.
    destruct (needsSearch m); [| reflexivity]. rewrite Hnull. reflexivity. }
  split; [exact P |].
  rewrite (POST_run env search_endpoint completions body m Hm Hne). cbv zeta.
  rewrite P. apply conclude_sent.
Qed.
End LookupAnyEndpoint.

(** The endpoint cannot be reached: the lookup logs the exception and the
    completion request is made with the base prompt. *)
Lemma absent_lookup_proceeds_witness :
  VoiceChatRoute.searchWikipedia env0 no_search (Js.VStr "what is zzyzx")
  = ([ VoiceChatRoute.FetchSearch "http://localhost:3000/api/search-wikipedia"
         (Js.VObj [("query", Js.VStr "what is zzyzx")]);
       VoiceChatRoute.ConsoleError "Wikipedia search failed:" "fetch failed" ],
     Js.VNull)
  /\ In (VoiceChatRoute.FetchCompletion (VoiceChatRoute.authorization env0)
           (VoiceChatRoute.mkPayload VoiceChatRoute.basePrompt "what is zzyzx"))
        (fst (VoiceChatRoute.POST env0 no_search no_completions (inr zzyzx))).
Proof.
  split; [reflexivity |].
  exact (proj2 (absent_lookup_proceeds env0 no_search no_completions zzyzx "what is zzyzx"
                  eq_refl ltac:(discriminate) eq_refl)).
Defined.
